(** * verifyWifi: the captive-portal authentication page and the session core

    The repository is a WiFi captive portal: an explicit proxy gates traffic
    per device address, and a React page (VerifyWifiPage) posts the login and
    logout calls to the authentication API.

    - [Js]      the fragment of the JavaScript run-time the page relies on:
                UTF-16 strings, [trim], [includes], parsed JSON values,
                truthiness, property reads, [URLSearchParams.get].
    - [Page]    the component VerifyWifiPage, as explicit state passing: every
                handler maps the component state to the next state and the
                list of effects it issues (fetch, localStorage, timers);
                [render] gives what the component shows for a state.
    - [Portal]  the session store, the decision engine, the interceptor's
                responses and the authentication endpoint.  *)

From Stdlib Require Import ZArith NArith List String Ascii Floats Lia.
From stdpp Require Import gmap strings list fin_maps.

Set Warnings "-register-all".
Local Open Scope N_scope.

(* ===================================================================== *)
(** * The JavaScript run-time fragment                                    *)
(* ===================================================================== *)

Module Js.

(** A JavaScript string is a sequence of 16-bit code units. *)
Abbreviation jsstring := (list N).

(** String literals of the source file are stored in UTF-8; [utf16] gives the
    code units the engine holds for such a literal. *)
Fixpoint utf16_of_utf8 (bs : list N) : jsstring :=
  match bs with
  | [] => []
  | b0 :: r0 =>
    if b0 <? 0x80 then b0 :: utf16_of_utf8 r0
    else if b0 <? 0xE0 then
      match r0 with
      | b1 :: r1 =>
        N.lor (N.shiftl (N.land b0 0x1F) 6) (N.land b1 0x3F) :: utf16_of_utf8 r1
      | [] => [0xFFFD]
      end
    else if b0 <? 0xF0 then
      match r0 with
      | b1 :: b2 :: r2 =>
        N.lor (N.shiftl (N.land b0 0x0F) 12)
              (N.lor (N.shiftl (N.land b1 0x3F) 6) (N.land b2 0x3F))
          :: utf16_of_utf8 r2
      | _ => [0xFFFD]
      end
    else
      match r0 with
      | b1 :: b2 :: b3 :: r3 =>
        let cp := N.lor (N.shiftl (N.land b0 0x07) 18)
                 (N.lor (N.shiftl (N.land b1 0x3F) 12)
                 (N.lor (N.shiftl (N.land b2 0x3F) 6) (N.land b3 0x3F))) in
        let v := cp - 0x10000 in
        (0xD800 + N.shiftr v 10) :: (0xDC00 + N.land v 0x3FF) :: utf16_of_utf8 r3
      | _ => [0xFFFD]
      end
  end.

Definition utf16 (s : string) : jsstring :=
  utf16_of_utf8 (map N_of_ascii (list_ascii_of_string s)).

(** ECMAScript WhiteSpace and LineTerminator code points: what
    [String.prototype.trim] strips.  All of them lie in the basic plane, so a
    test per code unit is exact. *)
Definition is_white_space (c : N) : bool :=
  (c =? 0x0009) || (c =? 0x000A) || (c =? 0x000B) || (c =? 0x000C)
  || (c =? 0x000D) || (c =? 0x0020) || (c =? 0x00A0) || (c =? 0x1680)
  || ((0x2000 <=? c) && (c <=? 0x200A))
  || (c =? 0x2028) || (c =? 0x2029) || (c =? 0x202F) || (c =? 0x205F)
  || (c =? 0x3000) || (c =? 0xFEFF).

Fixpoint trimStart (s : jsstring) : jsstring :=
  match s with
  | [] => []
  | c :: r => if is_white_space c then trimStart r else s
  end.

Definition trimEnd (s : jsstring) : jsstring := rev (trimStart (rev s)).

(** [s.trim()] *)
Definition trim (s : jsstring) : jsstring := trimEnd (trimStart s).

Fixpoint startsWith (s p : jsstring) : bool :=
  match p, s with
  | [], _ => true
  | _ :: _, [] => false
  | a :: p', b :: s' => (a =? b) && startsWith s' p'
  end.

(** [s.includes(p)] *)
Fixpoint includes (s p : jsstring) : bool :=
  startsWith s p ||
  match s with
  | [] => false
  | _ :: r => includes r p
  end.

(** Equality of strings, as [===] on two strings. *)
Fixpoint str_eqb (a b : jsstring) : bool :=
  match a, b with
  | [], [] => true
  | x :: a', y :: b' => (x =? y) && str_eqb a' b'
  | _, _ => false
  end.

(** Truthiness of a string: the empty string is the only falsy one. *)
Definition truthy_string (s : jsstring) : bool :=
  match s with [] => false | _ :: _ => true end.

(** Truthiness of a value that is a string or [undefined]. *)
Definition truthy_opt_string (v : option jsstring) : bool :=
  match v with
  | Some s => truthy_string s
  | None => false
  end.

(** A value produced by [JSON.parse] / [response.json()], or handed to
    [JSON.stringify].  An object is the list of its own properties. *)
Inductive JSON : Type :=
| JNull
| JBool (b : bool)
| JNum (x : float)
| JStr (s : jsstring)
| JArr (items : list JSON)
| JObj (props : list (jsstring * JSON)).

(** ToBoolean.  [None] stands for [undefined]. *)
Definition truthy_value (v : JSON) : bool :=
  match v with
  | JNull => false
  | JBool b => b
  | JNum x => negb (PrimFloat.eqb x 0%float) && PrimFloat.eqb x x
  | JStr s => truthy_string s
  | JArr _ => true
  | JObj _ => true
  end.

Definition truthy (v : option JSON) : bool :=
  match v with
  | None => false
  | Some w => truthy_value w
  end.

Fixpoint own_property (props : list (jsstring * JSON)) (k : jsstring)
  : option JSON :=
  match props with
  | [] => None
  | (k', v) :: r => if str_eqb k' k then Some v else own_property r k
  end.

(** [v.k] for a value [v] other than [null], and a key [k] that no
    prototype defines (the page reads only [success], [data],
    [session_token] and [error]): the own property of an object,
    [undefined] on every other value. *)
Definition get_property (v : JSON) (k : jsstring) : option JSON :=
  match v with
  | JObj props => own_property props k
  | _ => None
  end.

(** [v?.k]: [undefined] when [v] is [undefined] or [null]. *)
Definition optional_chain (v : option JSON) (k : jsstring) : option JSON :=
  match v with
  | None => None
  | Some JNull => None
  | Some w => get_property w k
  end.

(** [a || b] where [b] is a value. *)
Definition or_else (a : option JSON) (b : JSON) : JSON :=
  match a with
  | Some w => if truthy_value w then w else b
  | None => b
  end.

(** An optional key of an object: [None] when the object has no such own
    property, [Some v] when it has one; its value [v] may be [undefined]
    ([None]), which is what a spread with [[k]: undefined] leaves. *)
Abbreviation slot A := (option (option A)).

(** [o.k] for an optional key: [undefined] when the key is missing. *)
Definition read {A : Type} (x : slot A) : option A :=
  match x with
  | Some v => v
  | None => None
  end.

(** A thrown [Error] object, as far as the page inspects it:
    [error instanceof TypeError] and [error.message]. *)
Record Error := { is_TypeError : bool; message : jsstring }.

(** The parsed query string: [new URLSearchParams(search)], a list of
    name/value pairs in order of appearance. *)
Abbreviation URLSearchParams := (list (jsstring * jsstring)).

(** [params.get(name)]: the first value of that name, [null] if none. *)
Fixpoint URLSearchParams_get (params : URLSearchParams) (name : jsstring)
  : option jsstring :=
  match params with
  | [] => None
  | (n, v) :: r => if str_eqb n name then Some v else URLSearchParams_get r name
  end.

End Js.

(* ===================================================================== *)
(** * The component VerifyWifiPage                                        *)
(* ===================================================================== *)

Module Page.
Import Js.

(** [const AuthStatus = { IDLE, LOADING, SUCCESS, ERROR }] *)
Inductive AuthStatus := IDLE | LOADING | SUCCESS | ERROR.

(** [keyof FormData] *)
Inductive Field := Username | Password.

(** [interface FormData] *)
Module FormData.
Record t := { username : jsstring; password : jsstring }.
(** [fd[field]] *)
Definition get (field : Field) (fd : t) : jsstring :=
  match field with
  | Username => username fd
  | Password => password fd
  end.
(** [{ ...fd, [field]: value }] *)
Definition set (field : Field) (value : jsstring) (fd : t) : t :=
  match field with
  | Username => {| username := value; password := password fd |}
  | Password => {| username := username fd; password := value |}
  end.
End FormData.

(** [interface ErrorMessages]: every key is optional.  [username] and
    [password] only ever receive literals of the page; [general] also
    receives [result.error], a value the server chose. *)
Module ErrorMessages.
Record t := {
  username : slot jsstring;
  password : slot jsstring;
  general : slot JSON
}.
(** The object literal [{}]. *)
Definition empty : t :=
  {| username := None; password := None; general := None |}.
(** [e.username = m] and [e.password = m] *)
Definition set_username (m : jsstring) (e : t) : t :=
  {| username := Some (Some m); password := password e; general := general e |}.
Definition set_password (m : jsstring) (e : t) : t :=
  {| username := username e; password := Some (Some m); general := general e |}.
(** The object literal [{ general: m }]. *)
Definition only_general (m : JSON) : t :=
  {| username := None; password := None; general := Some (Some m) |}.
(** [Object.keys(e).length] *)
Definition keys_length (e : t) : nat :=
  (length (option_list (username e)) + length (option_list (password e))
   + length (option_list (general e)))%nat.
(** [e[field]], for a field of the form. *)
Definition get (field : Field) (e : t) : option jsstring :=
  match field with
  | Username => read (username e)
  | Password => read (password e)
  end.
(** [{ ...e, [field]: undefined }]: the key is there afterwards, and
    holds [undefined]. *)
Definition set_undefined (field : Field) (e : t) : t :=
  match field with
  | Username =>
    {| username := Some None; password := password e; general := general e |}
  | Password =>
    {| username := username e; password := Some None; general := general e |}
  end.
End ErrorMessages.

Inductive NotificationType := success | error | info.

(** [interface NotificationState] *)
Module NotificationState.
Record t := { message : JSON; type : NotificationType; key : Z }.
End NotificationState.

(** The six [React.useState] cells of the component. *)
Record State := {
  formData : FormData.t;
  authStatus : AuthStatus;
  errors : ErrorMessages.t;
  showPassword : bool;
  clientIP : jsstring;
  notification : option NotificationState.t
}.

(** The state of the first render. *)
Definition initialState : State :=
  {| formData := {| FormData.username := []; FormData.password := [] |};
     authStatus := IDLE;
     errors := ErrorMessages.empty;
     showPassword := false;
     clientIP := [];
     notification := None |}.

(** The state setters. *)
Definition setFormData (v : FormData.t) (s : State) : State :=
  {| formData := v; authStatus := authStatus s; errors := errors s;
     showPassword := showPassword s; clientIP := clientIP s;
     notification := notification s |}.
Definition setAuthStatus (v : AuthStatus) (s : State) : State :=
  {| formData := formData s; authStatus := v; errors := errors s;
     showPassword := showPassword s; clientIP := clientIP s;
     notification := notification s |}.
Definition setErrors (v : ErrorMessages.t) (s : State) : State :=
  {| formData := formData s; authStatus := authStatus s; errors := v;
     showPassword := showPassword s; clientIP := clientIP s;
     notification := notification s |}.
Definition setShowPassword (v : bool) (s : State) : State :=
  {| formData := formData s; authStatus := authStatus s; errors := errors s;
     showPassword := v; clientIP := clientIP s;
     notification := notification s |}.
Definition setClientIP (v : jsstring) (s : State) : State :=
  {| formData := formData s; authStatus := authStatus s; errors := errors s;
     showPassword := showPassword s; clientIP := v;
     notification := notification s |}.
Definition setNotification (v : option NotificationState.t) (s : State) : State :=
  {| formData := formData s; authStatus := authStatus s; errors := errors s;
     showPassword := showPassword s; clientIP := clientIP s;
     notification := v |}.

(** The argument of [fetch]: the URL and the init object.  [body] is the
    value handed to [JSON.stringify]; the request carries its JSON text. *)
Record Request := {
  url : jsstring;
  method : jsstring;
  headers : list (jsstring * jsstring);
  body : JSON
}.

(** What a [setTimeout] callback of the page does when it fires. *)
Inductive TimerAction :=
| WindowClose
| Navigate (href : jsstring)
| Reload.

(** The calls a handler makes on the browser, in program order. *)
Inductive Effect :=
| PreventDefault
| Fetch (req : Request)
| LocalStorageSetItem (key : jsstring) (value : JSON)
| SetTimeout (callback : TimerAction) (ms : Z)
| ConsoleError (label : jsstring) (err : Error).

(** [notify(message, type)]; [now] is what [Date.now()] returns. *)
Definition notify (now : Z) (message : JSON) (type : NotificationType)
  (s : State) : State :=
  setNotification
    (Some {| NotificationState.message := message;
             NotificationState.type := type;
             NotificationState.key := now |}) s.

(** The mount effect: read [client_ip] from the query string of the page. *)
Definition readClientIP (urlParams : URLSearchParams) (s : State) : State :=
  match URLSearchParams_get urlParams (utf16 "client_ip") with
  | Some ip => if truthy_string ip then setClientIP ip s else s
  | None => s
  end.

Definition clearErrors (s : State) : State := setErrors ErrorMessages.empty s.

(** [validateForm]: the verdict, and the state after [setErrors(newErrors)]. *)
Definition validateForm (s : State) : bool * State :=
  let newErrors := ErrorMessages.empty in
  let newErrors :=
    if negb (truthy_string (trim (FormData.username (formData s))))
    then ErrorMessages.set_username (utf16 "请输入用户名") newErrors
    else newErrors in
  let newErrors :=
    if negb (truthy_string (FormData.password (formData s)))
    then ErrorMessages.set_password (utf16 "请输入密码") newErrors
    else newErrors in
  (Nat.eqb (ErrorMessages.keys_length newErrors) 0, setErrors newErrors s).

(** [handleReset] *)
Definition handleReset (s : State) : State :=
  let s := setFormData {| FormData.username := []; FormData.password := [] |} s in
  let s := setAuthStatus IDLE s in
  let s := setErrors ErrorMessages.empty s in
  setShowPassword false s.

Definition json_headers : list (jsstring * jsstring) :=
  [(utf16 "Content-Type", utf16 "application/json")].

(** The login call of [handleSubmit]; [host] is [window.location.hostname]. *)
Definition loginRequest (host : jsstring) (fd : FormData.t) : Request :=
  {| url := utf16 "http://" ++ host ++ utf16 ":8080/api/auth/login";
     method := utf16 "POST";
     headers := json_headers;
     body := JObj [(utf16 "username", JStr (FormData.username fd));
                   (utf16 "password", JStr (FormData.password fd))] |}.

(** The logout call of [handleLogout]. *)
Definition logoutRequest (host : jsstring) (ip : jsstring) : Request :=
  {| url := utf16 "http://" ++ host ++ utf16 ":8080/api/auth/logout";
     method := utf16 "POST";
     headers := json_headers;
     body := JObj [(utf16 "client_ip", JStr ip)] |}.

(** [handleSubmit] up to its first [await]: validation, the LOADING state
    and the [fetch] call.  The boolean tells whether the handler is
    suspended on the request ([true]) or has returned ([false]). *)
Definition handleSubmit_begin (host : jsstring) (s : State)
  : State * list Effect * bool :=
  let '(ok, s1) := validateForm s in
  if negb ok then (s1, [PreventDefault], false)
  else
    let s2 := setAuthStatus LOADING s1 in
    let s3 := clearErrors s2 in
    (s3, [PreventDefault; Fetch (loginRequest host (formData s))], true).

(** How the two awaited promises of [handleSubmit] settle. *)
Inductive LoginOutcome :=
| FetchRejected (e : Error)
| JsonRejected (e : Error)
| JsonResolved (result : JSON).

(** The [TypeError] of a property read on [null] (the wording is the
    engine's; no engine's wording contains the word fetch). *)
Definition null_read_error : Error :=
  {| is_TypeError := true;
     message := utf16 "Cannot read properties of null (reading 'success')" |}.

(** The [catch] block of [handleSubmit]. *)
Definition handleSubmit_catch (e : Error) (now : Z) (s : State)
  : State * list Effect :=
  let s := setAuthStatus ERROR s in
  let errorMessage :=
    if is_TypeError e && includes (Js.message e) (utf16 "fetch")
    then utf16 "无法连接到认证服务器，请检查网络连接"
    else utf16 "网络连接失败，请检查网络设置后重试" in
  let s := notify now (JStr errorMessage) error s in
  let s := setErrors (ErrorMessages.only_general (JStr errorMessage)) s in
  (s, [ConsoleError (utf16 "认证请求失败:") e]).

(** [handleSubmit] from the settlement of its promises to its end.
    [captured] is the state of the render whose closure is running (the
    timer callback reads its [clientIP]); [s] is the current state, on which
    the setters act.  [localStorage.setItem] is taken to return normally. *)
Definition handleSubmit_resume (captured : State) (o : LoginOutcome)
  (now : Z) (s : State) : State * list Effect :=
  match o with
  | FetchRejected e => handleSubmit_catch e now s
  | JsonRejected e => handleSubmit_catch e now s
  | JsonResolved JNull => handleSubmit_catch null_read_error now s
  | JsonResolved result =>
    if truthy (get_property result (utf16 "success")) then
      let s := setAuthStatus SUCCESS s in
      let s := notify now (JStr (utf16 "认证成功！现在可以自由上网了。")) success s in
      let session_token :=
        optional_chain (get_property result (utf16 "data")) (utf16 "session_token") in
      let store :=
        match session_token with
        | Some tok =>
          if truthy_value tok then [LocalStorageSetItem (utf16 "auth_token") tok]
          else []
        | None => []
        end in
      let callback :=
        if truthy_string (clientIP captured) then WindowClose
        else Navigate (utf16 "/") in
      (s, store ++ [SetTimeout callback 3000%Z])
    else
      let s := setAuthStatus ERROR s in
      let errorMessage :=
        or_else (get_property result (utf16 "error"))
                (JStr (utf16 "认证失败，请重试")) in
      let s := notify now errorMessage error s in
      let s := setErrors (ErrorMessages.only_general errorMessage) s in
      (s, [])
  end.

(** A whole run of [handleSubmit] with nothing else scheduled in between. *)
Definition handleSubmit (host : jsstring) (o : LoginOutcome) (now : Z)
  (s : State) : State * list Effect :=
  let '(s1, eff1, suspended) := handleSubmit_begin host s in
  if suspended then
    let '(s2, eff2) := handleSubmit_resume s o now s1 in
    (s2, eff1 ++ eff2)
  else (s1, eff1).

(** How the awaited [fetch] of [handleLogout] settles; the response is not
    looked at. *)
Inductive LogoutOutcome :=
| LogoutRejected (e : Error)
| LogoutResolved.

(** [handleLogout] up to its [await]. *)
Definition handleLogout_begin (host : jsstring) (s : State) : list Effect :=
  [Fetch (logoutRequest host (clientIP s))].

(** [handleLogout] from the settlement of [fetch] to its end. *)
Definition handleLogout_resume (o : LogoutOutcome) (now : Z) (s : State)
  : State * list Effect :=
  match o with
  | LogoutResolved =>
    let s := notify now (JStr (utf16 "您已成功注销")) info s in
    let s := handleReset s in
    (s, [SetTimeout Reload 1500%Z])
  | LogoutRejected e =>
    let s := notify now (JStr (utf16 "登出时发生错误，请刷新页面重试")) error s in
    (s, [ConsoleError (utf16 "登出失败:") e])
  end.

Definition handleLogout (host : jsstring) (o : LogoutOutcome) (now : Z)
  (s : State) : State * list Effect :=
  let '(s', eff) := handleLogout_resume o now s in
  (s', handleLogout_begin host s ++ eff).

(** The [keydown] listener: Escape resets the form. *)
Definition handleKeyDown (key : jsstring) (s : State) : State :=
  if str_eqb key (utf16 "Escape") then handleReset s else s.

(** [togglePasswordVisibility] *)
Definition togglePasswordVisibility (s : State) : State :=
  setShowPassword (negb (showPassword s)) s.

(** [handleInputChange(field)(event)]; [value] is [event.target.value].
    [captured] is the state of the render whose closure is running (it
    reads [errors[field]]); both setters are given updater functions, which
    act on the current state [s]. *)
Definition handleInputChange (captured : State) (field : Field)
  (value : jsstring) (s : State) : State :=
  let s := setFormData (FormData.set field value (formData s)) s in
  if truthy_opt_string (ErrorMessages.get field (errors captured))
  then setErrors (ErrorMessages.set_undefined field (errors s)) s
  else s.

(** The [onClose] handler handed to [SimpleNotification]. *)
Definition onClose (s : State) : State := setNotification None s.

(** The value of the constant [AuthStatus] at each key. *)
Definition AuthStatus_value (a : AuthStatus) : jsstring :=
  match a with
  | IDLE => utf16 "idle"
  | LOADING => utf16 "loading"
  | SUCCESS => utf16 "success"
  | ERROR => utf16 "error"
  end.

(** [authStatus === AuthStatus.LOADING] *)
Definition is_loading (a : AuthStatus) : bool :=
  str_eqb (AuthStatus_value a) (AuthStatus_value LOADING).

(** [authStatus === AuthStatus.SUCCESS] *)
Definition is_success (a : AuthStatus) : bool :=
  str_eqb (AuthStatus_value a) (AuthStatus_value SUCCESS).

(** The props of an [<input>] of the form that depend on the state. *)
Record InputProps := {
  input_type : jsstring;
  input_className : jsstring;
  input_value : jsstring;
  input_disabled : bool;
  aria_describedby : option jsstring;
  aria_invalid : bool
}.

(** The two drawings of the toggle button. *)
Inductive ToggleIcon := EyeCrossed | EyeOpen.

(** What the component returns, as far as it depends on the state: the
    conditional blocks and the props computed from the state cells.  A block
    guarded by [x && ...] is [None] when [x] is falsy. *)
Record View := {
  simpleNotification : option NotificationState.t;
  client_info : option jsstring;
  username_input : InputProps;
  username_error : option jsstring;
  password_input : InputProps;
  toggle_aria_label : jsstring;
  toggle_disabled : bool;
  toggle_icon : ToggleIcon;
  password_error : option jsstring;
  general_error : option JSON;
  submit_className : jsstring;
  submit_disabled : bool;
  loading_spinner : bool;
  submit_text : jsstring;
  reset_button : bool;
  logout_button : bool
}.

(** [x && <p>{x}</p>] for a string or [undefined]. *)
Definition shown_if_truthy (x : option jsstring) : option jsstring :=
  if truthy_opt_string x then x else None.

(** The render function of the component. *)
Definition render (s : State) : View :=
  let loading := is_loading (authStatus s) in
  let eu := read (ErrorMessages.username (errors s)) in
  let ep := read (ErrorMessages.password (errors s)) in
  let eg := read (ErrorMessages.general (errors s)) in
  {| simpleNotification := notification s;
     client_info := shown_if_truthy (Some (clientIP s));
     username_input :=
       {| input_type := utf16 "text";
          input_className :=
            utf16 "form-input "
            ++ (if truthy_opt_string eu then utf16 "error" else []);
          input_value := FormData.username (formData s);
          input_disabled := loading;
          aria_describedby :=
            if truthy_opt_string eu then Some (utf16 "username-error") else None;
          aria_invalid := truthy_opt_string eu |};
     username_error := shown_if_truthy eu;
     password_input :=
       {| input_type :=
            if showPassword s then utf16 "text" else utf16 "password";
          input_className :=
            utf16 "form-input "
            ++ (if truthy_opt_string ep then utf16 "error" else []);
          input_value := FormData.password (formData s);
          input_disabled := loading;
          aria_describedby :=
            if truthy_opt_string ep then Some (utf16 "password-error") else None;
          aria_invalid := truthy_opt_string ep |};
     toggle_aria_label :=
       if showPassword s then utf16 "隐藏密码" else utf16 "显示密码";
     toggle_disabled := loading;
     toggle_icon := if showPassword s then EyeCrossed else EyeOpen;
     password_error := shown_if_truthy ep;
     general_error := if truthy eg then eg else None;
     submit_className := utf16 "submit-btn " ++ AuthStatus_value (authStatus s);
     submit_disabled := loading;
     loading_spinner := loading;
     submit_text :=
       if loading then utf16 "认证中..."
       else if is_success (authStatus s) then utf16 "认证成功"
       else utf16 "连接网络";
     reset_button := negb loading;
     logout_button := is_success (authStatus s) |}.

(** What can happen to a mounted component: a handler runs to its end, or
    an awaited promise of a handler settles. *)
Inductive Event :=
| InputChange (captured : State) (field : Field) (value : jsstring)
| TogglePassword
| Submit (host : jsstring)
| LoginSettled (captured : State) (o : LoginOutcome) (now : Z)
| ResetClick
| KeyDown (key : jsstring)
| LogoutSettled (o : LogoutOutcome) (now : Z)
| NotificationClosed.

(** The state after an event. *)
Definition handle (e : Event) (s : State) : State :=
  match e with
  | InputChange captured field value => handleInputChange captured field value s
  | TogglePassword => togglePasswordVisibility s
  | Submit host => (handleSubmit_begin host s).1.1
  | LoginSettled captured o now => (handleSubmit_resume captured o now s).1
  | ResetClick => handleReset s
  | KeyDown key => handleKeyDown key s
  | LogoutSettled o now => (handleLogout_resume o now s).1
  | NotificationClosed => onClose s
  end.

(** The state after a sequence of events, oldest first. *)
Definition run (es : list Event) (s : State) : State :=
  fold_left (fun s e => handle e s) es s.

End Page.

(* ===================================================================== *)
(** * The session core: store, decision engine, interceptor, endpoint     *)
(* ===================================================================== *)

Module Portal.
Import Js.

Local Open Scope Z_scope.

(** A device address and a session token are strings. *)
Abbreviation Address := jsstring.
Abbreviation Token := jsstring.

Inductive SessionState := UNAUTHENTICATED | AUTHENTICATED.

(** Modelled from the spec: the Session record of the store (the server's
    session table is not among the sources).  The address is the key of
    the store, so a store holds at most one record per address. *)
Record Session := {
  state : SessionState;
  token : option Token;
  created_at : Z;
  expires_at : Z;
  last_seen_at : Z
}.

(** Modelled from the spec: the durable mapping from device address to
    session (the server's persisted table is not among the sources). *)
Abbreviation Store := (gmap Address Session).

(** Modelled from the spec: what [get] reports for an address (the server's
    store module is not among the sources). *)
Record SessionView := { view_state : SessionState; view_token : option Token }.

Definition unauthenticated : SessionView :=
  {| view_state := UNAUTHENTICATED; view_token := None |}.

(** Modelled from the spec: demotion of a record to UNAUTHENTICATED with a
    null token (the server's store module is not among the sources). *)
Definition demote (r : Session) : Session :=
  {| state := UNAUTHENTICATED; token := None; created_at := created_at r;
     expires_at := expires_at r; last_seen_at := last_seen_at r |}.

(** Modelled from the spec: [Session Store.get] of the server's store module,
    which is not among the sources.  An absent row and a demoted row read as
    UNAUTHENTICATED; a row is trusted until [now >= expires_at]; a stale row
    is demoted by a write before the call returns. *)
Definition get (now : Z) (a : Address) (st : Store) : SessionView * Store :=
  match st !! a with
  | None => (unauthenticated, st)
  | Some r =>
    match state r with
    | UNAUTHENTICATED => (unauthenticated, st)
    | AUTHENTICATED =>
      if now <? expires_at r
      then ({| view_state := AUTHENTICATED; view_token := token r |}, st)
      else (unauthenticated, <[a := demote r]> st)
    end
  end.

(** Modelled from the spec: [Session Store.put] of the server's store module,
    which is not among the sources.  Creates or overwrites the record in
    place, AUTHENTICATED, with [expires_at = now + ttl]. *)
Definition put (now : Z) (a : Address) (tok : Token) (ttl : Z) (st : Store)
  : Store :=
  <[a := {| state := AUTHENTICATED; token := Some tok; created_at := now;
            expires_at := now + ttl; last_seen_at := now |}]> st.

(** Modelled from the spec: [Session Store.remove] of the server's store
    module, which is not among the sources.  Deletes the record. *)
Definition remove (a : Address) (st : Store) : Store := delete a st.

(** Modelled from the spec: the best-effort update of [last_seen_at] after an
    interception (the proxy is not among the sources); it never creates a
    row. *)
Definition touch (now : Z) (a : Address) (st : Store) : Store :=
  alter (fun r => {| state := state r; token := token r;
                     created_at := created_at r; expires_at := expires_at r;
                     last_seen_at := now |}) a st.

(** Modelled from the spec: the outcome of a store call as its caller sees
    it, a value or the StoreIOError of the error taxonomy (the server's
    store module is not among the sources). *)
Inductive StoreResult (A : Type) :=
| Done (x : A)
| StoreIOError.
Arguments Done {A} x.
Arguments StoreIOError {A}.

(** Modelled from the spec: a store call against the storage medium, which
    either commits ([healthy]) or reports an I/O error and changes nothing
    (the server's store module is not among the sources). *)
Definition commit {A : Type} (healthy : bool) (x : A) : StoreResult A :=
  if healthy then Done x else StoreIOError.

(** Modelled from the spec: the stated method of the leading request, the
    tunnel-establishment method or any other (the proxy is not among the
    sources). *)
Inductive Method :=
| TunnelEstablishment
| OtherMethod (name : jsstring).

Inductive Scheme := PlainHTTP | Tunnelled.

(** Modelled from the spec: classification of the scheme from the method
    alone (the proxy is not among the sources). *)
Definition classify (m : Method) : Scheme :=
  match m with
  | TunnelEstablishment => Tunnelled
  | OtherMethod _ => PlainHTTP
  end.

(** Modelled from the spec: the Pending Request (the proxy is not among the
    sources). *)
Record PendingRequest := {
  method : Method;
  target : jsstring * Z;
  scheme : Scheme;
  sourceAddress : Address
}.

(** Modelled from the spec: step 3 of the interceptor, which builds the
    Pending Request and classifies it once (the proxy is not among the
    sources). *)
Definition pendingRequest (m : Method) (tgt : jsstring * Z) (src : Address)
  : PendingRequest :=
  {| method := m; target := tgt; scheme := classify m; sourceAddress := src |}.

Inductive Action := FORWARD | REDIRECT_AUTH | REJECT.

(** Modelled from the spec: the decision table of steps 2 to 4 (the proxy is
    not among the sources). *)
Definition verdict (s : SessionState) (sch : Scheme) : Action :=
  match s with
  | AUTHENTICATED => FORWARD
  | UNAUTHENTICATED =>
    match sch with
    | PlainHTTP => REDIRECT_AUTH
    | Tunnelled => REJECT
    end
  end.

(** Modelled from the spec: [decide] of the Policy Decision Engine, which is
    in the proxy and not among the sources.  It reads the store once; a
    lookup that fails with StoreIOError is treated as REJECT. *)
Definition decide (healthy : bool) (now : Z) (req : PendingRequest)
  (st : Store) : Action * Store :=
  match commit healthy (get now (sourceAddress req) st) with
  | StoreIOError => (REJECT, st)
  | Done (v, st') => (verdict (view_state v) (scheme req), st')
  end.

(** Modelled from the spec: a URL of the authentication page with its query
    parameters (the proxy is not among the sources). *)
Record URL := { page : jsstring; query : URLSearchParams }.

(** Modelled from the spec: what the interceptor does with a connection (the
    proxy is not among the sources). *)
Inductive Response :=
| Relay (tgt : jsstring * Z)
| Redirect (location : URL)
| Close.

(** Modelled from the spec: execution of the verdict by the interceptor,
    which is in the proxy and not among the sources.  The redirect points at
    the authentication page and embeds the client's address as [client_ip]. *)
Definition execute (authPage : jsstring) (a : Action) (req : PendingRequest)
  : Response :=
  match a with
  | FORWARD => Relay (target req)
  | REDIRECT_AUTH =>
    Redirect {| page := authPage;
                query := [(utf16 "client_ip", sourceAddress req)] |}
  | REJECT => Close
  end.

(** Modelled from the spec: steps 3 to 5 of the per-connection sequence of
    the interceptor (the proxy is not among the sources). *)
Definition intercept (healthy : bool) (authPage : jsstring) (now : Z)
  (req : PendingRequest) (st : Store) : Response * Store :=
  let '(a, st') := decide healthy now req st in
  (execute authPage a req,
   if healthy then touch now (sourceAddress req) st' else st').

(** Modelled from the spec: the single configured credential pair (the
    server's configuration is not among the sources). *)
Record Credentials := { username : jsstring; password : jsstring }.

(** Modelled from the spec: the errors of the authentication endpoint,
    InvalidCredentials and the general failure that a StoreIOError becomes
    (the authentication API is not among the sources). *)
Inductive AuthError := InvalidCredentials | GeneralFailure.

(** Modelled from the spec: [login] of the Auth Endpoint Handler, which is in
    the authentication API and not among the sources.  [newToken] is the
    token that [newToken()] issues for this call. *)
Definition login (healthy : bool) (cfg : Credentials) (now ttl : Z)
  (newToken : Token) (a : Address) (u p : jsstring) (st : Store)
  : (Token + AuthError) * Store :=
  if str_eqb u (username cfg) && str_eqb p (password cfg) then
    match commit healthy (put now a newToken ttl st) with
    | Done st' => (inl newToken, st')
    | StoreIOError => (inr GeneralFailure, st)
    end
  else (inr InvalidCredentials, st).

Inductive LogoutResult := LoggedOut | LogoutFailed.

(** Modelled from the spec: [logout] of the Auth Endpoint Handler, which is
    in the authentication API and not among the sources.  It calls [remove]
    without looking at the store first. *)
Definition logout (healthy : bool) (a : Address) (st : Store)
  : LogoutResult * Store :=
  match commit healthy (remove a st) with
  | Done st' => (LoggedOut, st')
  | StoreIOError => (LogoutFailed, st)
  end.

End Portal.

Import Js Page.

(* ===================================================================== *)
(** * Vocabulary of the statements                                        *)
(* ===================================================================== *)

(** The string holds a character that [trim] does not strip. *)
Definition has_non_whitespace (s : jsstring) : Prop :=
  Exists (fun c => is_white_space c = false) s.

(** The string consists of characters that [trim] strips. *)
Definition whitespace_only (s : jsstring) : Prop :=
  Forall (fun c => is_white_space c = true) s.

(** No effect of the list is a write to [localStorage]. *)
Definition no_localStorage_write (eff : list Effect) : Prop :=
  forall k v, LocalStorageSetItem k v ∉ eff.

(** No effect of the list is a network request. *)
Definition no_request (eff : list Effect) : Prop :=
  forall req, Fetch req ∉ eff.

(** Modelled from the spec: a response body of the shape the authentication
    API documents, [{success, data?: {session_token}, error?}] (the
    authentication API itself is not among the sources). *)
Definition apiResponse (ok : bool) (session_token : option jsstring)
  (err : option jsstring) : JSON :=
  JObj ([(utf16 "success", JBool ok)]
        ++ match session_token with
           | Some t => [(utf16 "data", JObj [(utf16 "session_token", JStr t)])]
           | None => []
           end
        ++ match err with
           | Some e => [(utf16 "error", JStr e)]
           | None => []
           end).

(** The message the page shows for a failed login: [result.error] when it
    is a non-empty string, the page's own text otherwise. *)
Definition shown_error (err : option jsstring) : JSON :=
  match err with
  | Some e => if truthy_string e then JStr e else JStr (utf16 "认证失败，请重试")
  | None => JStr (utf16 "认证失败，请重试")
  end.

(** The state the [else] branch and the [catch] block leave: ERROR, the
    message as notification and as the general error. *)
Definition failed_with (m : JSON) (now : Z) (s : State) : State :=
  setErrors (ErrorMessages.only_general m)
    (notify now m error (setAuthStatus ERROR s)).

(** The outcome of a login call is a failure: a rejected promise, or a body
    whose [success] is falsy. *)
Definition login_failed (o : LoginOutcome) : Prop :=
  match o with
  | FetchRejected _ => True
  | JsonRejected _ => True
  | JsonResolved result => truthy (get_property result (utf16 "success")) = false
  end.

(** The outcome is a body whose [success] is truthy and whose
    [data.session_token] is the truthy value [v]. *)
Definition login_succeeded_with (o : LoginOutcome) (v : JSON) : Prop :=
  exists result,
    o = JsonResolved result
    /\ truthy (get_property result (utf16 "success")) = true
    /\ (forall b, get_property result (utf16 "success") = Some (JBool b) -> b = true)
    /\ optional_chain (get_property result (utf16 "data")) (utf16 "session_token")
       = Some v
    /\ truthy_value v = true.

(** The device could be told from the login request: some function of the
    request that [handleSubmit] sends yields the [client_ip] the page read. *)
Definition login_request_names_device : Prop :=
  exists f : Request -> jsstring,
    forall host s req,
      Fetch req ∈ (handleSubmit_begin host s).1.2 -> f req = clientIP s.

(** The address and the page states of the scenarios. *)
Definition device_5 : jsstring := utf16 "10.0.0.5".
Definition device_6 : jsstring := utf16 "10.0.0.6".
Definition portal_host : jsstring := utf16 "192.168.1.1".

Definition filled (ip : jsstring) : State :=
  setFormData {| FormData.username := utf16 "addyya";
                 FormData.password := utf16 "sf123123" |}
    (readClientIP [(utf16 "client_ip", ip)] initialState).

Definition configured : Portal.Credentials :=
  {| Portal.username := utf16 "addyya"; Portal.password := utf16 "sf123123" |}.

(** A store that holds one session, of [device_5], issued at time 100 for
    an hour. *)
Definition session_5 : Portal.Store :=
  Portal.put 100 device_5 (utf16 "tok-1") 3600 ∅.

(** A plain HTTP request and a tunnel request of [device_5]. *)
Definition plain_request_5 : Portal.PendingRequest :=
  Portal.pendingRequest (Portal.OtherMethod (utf16 "GET"))
    (utf16 "example.com", 80%Z) device_5.

Definition tunnel_request_5 : Portal.PendingRequest :=
  Portal.pendingRequest Portal.TunnelEstablishment
    (utf16 "example.com", 443%Z) device_5.

(** Splits a membership hypothesis over a literal list of effects. *)
Ltac split_mem H :=
  repeat match type of H with
         | _ ∈ _ ++ _ => apply elem_of_app in H as [H|H]
         | _ ∈ _ :: _ => apply elem_of_cons in H as [H|H]
         | _ ∈ [] => apply elem_of_nil in H; contradiction
         end.

(* ===================================================================== *)
(** * Facts about the run-time fragment                                   *)
(* ===================================================================== *)

Section JsFacts.

Example utf16_ascii : utf16 "fetch" = [0x66; 0x65; 0x74; 0x63; 0x68].
Proof. reflexivity. Qed.

Example utf16_cjk :
  utf16 "请输入用户名" = [0x8BF7; 0x8F93; 0x5165; 0x7528; 0x6237; 0x540D].
Proof. reflexivity. Qed.

Example trim_inner_space : trim (utf16 "  a b  ") = utf16 "a b".
Proof. reflexivity. Qed.

Example includes_fetch : includes (utf16 "Failed to fetch") (utf16 "fetch") = true.
Proof. reflexivity. Qed.

Example null_read_not_fetch :
  includes (Js.message null_read_error) (utf16 "fetch") = false.
Proof. reflexivity. Qed.

Lemma forallb_trimStart (s : jsstring) :
  forallb is_white_space (trimStart s) = forallb is_white_space s.
Proof.
  induction s as [|c r IH]; simpl; [reflexivity|].
  destruct (is_white_space c) eqn:Hc; simpl.
  - exact IH.
  - now rewrite Hc.
Qed.

Lemma trimStart_nil (s : jsstring) :
  trimStart s = [] <-> forallb is_white_space s = true.
Proof.
  induction s as [|c r IH]; simpl; [tauto|].
  destruct (is_white_space c); simpl; [exact IH|].
  split; discriminate.
Qed.

Lemma forallb_rev (f : N -> bool) (s : jsstring) :
  forallb f (rev s) = forallb f s.
Proof.
  induction s as [|c r IH]; simpl; [reflexivity|].
  rewrite forallb_app, IH; simpl.
  rewrite andb_true_r. apply andb_comm.
Qed.

Lemma trim_nil (s : jsstring) :
  trim s = [] <-> forallb is_white_space s = true.
Proof.
  unfold trim, trimEnd.
  rewrite <- (forallb_trimStart s), <- (forallb_rev _ (trimStart s)).
  rewrite <- trimStart_nil.
  split; intros H.
  - apply (f_equal (@rev N)) in H. now rewrite rev_involutive in H.
  - now rewrite H.
Qed.

Lemma truthy_string_nil (s : jsstring) : truthy_string s = false <-> s = [].
Proof. destruct s; simpl; split; congruence. Qed.

Lemma truthy_string_true (s : jsstring) : truthy_string s = true <-> s <> [].
Proof. destruct s; simpl; split; congruence. Qed.

Lemma truthy_trim (s : jsstring) :
  truthy_string (trim s) = negb (forallb is_white_space s).
Proof.
  destruct (forallb is_white_space s) eqn:Hs; simpl.
  - apply truthy_string_nil, trim_nil, Hs.
  - destruct (truthy_string (trim s)) eqn:Ht; [reflexivity|].
    apply truthy_string_nil, trim_nil in Ht. congruence.
Qed.

Lemma whitespace_only_forallb (s : jsstring) :
  whitespace_only s <-> forallb is_white_space s = true.
Proof.
  unfold whitespace_only. rewrite forallb_forall, List.Forall_forall. reflexivity.
Qed.

Lemma has_non_whitespace_forallb (s : jsstring) :
  has_non_whitespace s <-> forallb is_white_space s = false.
Proof.
  unfold has_non_whitespace.
  induction s as [|c r IH]; simpl.
  - split; [intros H; inversion H | discriminate].
  - rewrite List.Exists_cons, IH.
    destruct (is_white_space c); simpl; intuition congruence.
Qed.

Lemma str_eqb_eq (a b : jsstring) : str_eqb a b = true <-> a = b.
Proof.
  revert b. induction a as [|x a IH]; intros [|y b]; simpl;
    try (split; congruence).
  rewrite andb_true_iff, N.eqb_eq, IH.
  split; [intros [-> ->]; reflexivity | intros H; inversion H; auto].
Qed.

Lemma str_eqb_neq (a b : jsstring) : str_eqb a b = false <-> a <> b.
Proof.
  rewrite <- str_eqb_eq. destruct (str_eqb a b); split; congruence.
Qed.

End JsFacts.

(* ===================================================================== *)
(** * The page: validation, submit, reset, logout                         *)
(* ===================================================================== *)

Section PageFacts.

Lemma validateForm_verdict (s : State) :
  (validateForm s).1 =
  negb (forallb is_white_space (FormData.username (formData s)))
  && truthy_string (FormData.password (formData s)).
Proof.
  unfold validateForm. rewrite truthy_trim.
  destruct (forallb is_white_space (FormData.username (formData s)));
    destruct (truthy_string (FormData.password (formData s))); reflexivity.
Qed.

Lemma validateForm_true (s : State) :
  (validateForm s).1 = true <->
  has_non_whitespace (FormData.username (formData s))
  /\ FormData.password (formData s) <> [].
Proof.
  rewrite validateForm_verdict, andb_true_iff, negb_true_iff.
  rewrite has_non_whitespace_forallb, truthy_string_true. reflexivity.
Qed.

Lemma validateForm_username_error (s : State) :
  whitespace_only (FormData.username (formData s)) ->
  read (ErrorMessages.username (errors (validateForm s).2))
  = Some (utf16 "请输入用户名").
Proof.
  intros H. apply whitespace_only_forallb in H.
  unfold validateForm. rewrite truthy_trim, H.
  destruct (truthy_string (FormData.password (formData s))); reflexivity.
Qed.

Lemma handleSubmit_begin_valid (host : jsstring) (s : State) :
  (validateForm s).1 = true ->
  handleSubmit_begin host s =
  (clearErrors (setAuthStatus LOADING (validateForm s).2),
   [PreventDefault; Fetch (loginRequest host (formData s))], true).
Proof.
  intros H. unfold handleSubmit_begin.
  destruct (validateForm s) as [ok s1]; simpl in *. now subst ok.
Qed.

Lemma handleSubmit_begin_invalid (host : jsstring) (s : State) :
  (validateForm s).1 = false ->
  handleSubmit_begin host s = ((validateForm s).2, [PreventDefault], false).
Proof.
  intros H. unfold handleSubmit_begin.
  destruct (validateForm s) as [ok s1]; simpl in *. now subst ok.
Qed.

(** C10 — [handleReset] sets [formData] to two empty strings, [authStatus]
    to IDLE, [errors] to the empty object and [showPassword] to false, and
    leaves [clientIP] and the current notification as they were, whatever
    the state of the component. *)
Theorem handleReset_frame (s : State) :
  handleReset s =
  {| formData := {| FormData.username := []; FormData.password := [] |};
     authStatus := IDLE;
     errors := ErrorMessages.empty;
     showPassword := false;
     clientIP := clientIP s;
     notification := notification s |}
  /\ ErrorMessages.keys_length (errors (handleReset s)) = 0%nat
  /\ clientIP (handleReset s) = clientIP s
  /\ notification (handleReset s) = notification s.
Proof. repeat split. Qed.

(** Escape resets the form through the same function, also while a login is
    in flight. *)
Lemma handleKeyDown_escape (s : State) :
  handleKeyDown (utf16 "Escape") s = handleReset s.
Proof. reflexivity. Qed.

(** C9 — [handleSubmit] issues the login request only when [validateForm]
    accepts the form; [validateForm] returns true exactly when the username
    holds a non-whitespace character and the password is not empty.  A
    whitespace-only username gets the field error and no request; a
    whitespace-only password (not empty) passes and is sent as it is. *)
Theorem submit_only_when_valid (host : jsstring) (s : State) :
  let fd := formData s in
  let r := handleSubmit_begin host s in
  ((validateForm s).1 = true <->
     has_non_whitespace (FormData.username fd) /\ FormData.password fd <> [])
  /\ ((exists req, Fetch req ∈ r.1.2) <-> (validateForm s).1 = true)
  /\ ((validateForm s).1 = true ->
        r.1.2 = [PreventDefault; Fetch (loginRequest host fd)] /\ r.2 = true)
  /\ (whitespace_only (FormData.username fd) ->
        read (ErrorMessages.username (errors r.1.1)) = Some (utf16 "请输入用户名")
        /\ no_request r.1.2 /\ r.2 = false)
  /\ (has_non_whitespace (FormData.username fd) ->
      FormData.password fd <> [] ->
      whitespace_only (FormData.password fd) ->
        Fetch (loginRequest host fd) ∈ r.1.2
        /\ get_property (body (loginRequest host fd)) (utf16 "password")
           = Some (JStr (FormData.password fd))).
Proof.
  cbv zeta.
  split; [apply validateForm_true|].
  split.
  { split.
    - intros [req Hreq].
      destruct ((validateForm s).1) eqn:Hv; [reflexivity|].
      rewrite (handleSubmit_begin_invalid host s Hv) in Hreq; simpl in Hreq.
      split_mem Hreq. discriminate.
    - intros Hv. rewrite (handleSubmit_begin_valid host s Hv); simpl.
      eexists. apply elem_of_cons; right. apply elem_of_cons; left. reflexivity. }
  split.
  { intros Hv. rewrite (handleSubmit_begin_valid host s Hv). split; reflexivity. }
  split.
  { intros Hw.
    assert (Hv : (validateForm s).1 = false).
    { rewrite validateForm_verdict.
      apply whitespace_only_forallb in Hw. now rewrite Hw. }
    rewrite (handleSubmit_begin_invalid host s Hv); simpl.
    split; [now apply validateForm_username_error|].
    split; [|reflexivity].
    intros req Hreq. split_mem Hreq. discriminate. }
  intros Hu Hp _.
  assert (Hv : (validateForm s).1 = true) by (apply validateForm_true; auto).
  rewrite (handleSubmit_begin_valid host s Hv); simpl.
  split; [|reflexivity].
  apply elem_of_cons; right. apply elem_of_cons; left. reflexivity.
Qed.

(** A username of two spaces: the field error, no request. *)
Example submit_blank_username :
  let s := setFormData {| FormData.username := utf16 "  ";
                          FormData.password := utf16 "sf123123" |} initialState in
  handleSubmit_begin portal_host s
  = (setErrors (ErrorMessages.set_username (utf16 "请输入用户名")
                  ErrorMessages.empty) s,
     [PreventDefault], false).
Proof. reflexivity. Qed.

(** A password of one space: the request goes out with that password. *)
Example submit_blank_password :
  let fd := {| FormData.username := utf16 "addyya";
               FormData.password := utf16 " " |} in
  (handleSubmit_begin portal_host (setFormData fd initialState)).1.2
  = [PreventDefault; Fetch (loginRequest portal_host fd)].
Proof. reflexivity. Qed.

End PageFacts.

Section LoginCall.

Lemma handleSubmit_catch_state (e : Error) (now : Z) (s : State) :
  exists m, truthy_string m = true
    /\ handleSubmit_catch e now s
       = (failed_with (JStr m) now s, [ConsoleError (utf16 "认证请求失败:") e]).
Proof.
  unfold handleSubmit_catch.
  destruct (is_TypeError e && includes (Js.message e) (utf16 "fetch"));
    eexists; split; try reflexivity; reflexivity.
Qed.

Lemma or_else_truthy (a : option JSON) (b : JSON) :
  truthy_value b = true -> truthy_value (or_else a b) = true.
Proof.
  intros Hb. destruct a as [w|]; simpl; [|exact Hb].
  destruct (truthy_value w) eqn:Hw; assumption.
Qed.

(** C3 — The login request of the page is a POST to [/api/auth/login] (on
    port 8080 of the page's host) whose JSON body has exactly the fields
    [username] and [password], taken from the form.  A response of the shape
    [{success, data?: {session_token}, error?}] is read as follows: on
    success the page reads [data.session_token] (and keeps it when it is not
    empty); on failure it shows [error] (its own text when [error] is
    missing or empty) as the notification and as the general error. *)
Theorem login_call_shape (host : jsstring) (captured s : State) (now : Z)
  (tok err : option jsstring) :
  let req := loginRequest host (formData s) in
  let ok := handleSubmit_resume captured (JsonResolved (apiResponse true tok err)) now s in
  let ko := handleSubmit_resume captured (JsonResolved (apiResponse false tok err)) now s in
  Page.method req = utf16 "POST"
  /\ url req = utf16 "http://" ++ host ++ utf16 ":8080/api/auth/login"
  /\ body req = JObj [(utf16 "username", JStr (FormData.username (formData s)));
                      (utf16 "password", JStr (FormData.password (formData s)))]
  /\ ((validateForm s).1 = true ->
      (handleSubmit_begin host s).1.2 = [PreventDefault; Fetch req])
  /\ authStatus ok.1 = SUCCESS
  /\ ok.2 = match tok with
            | Some t =>
              if truthy_string t
              then [LocalStorageSetItem (utf16 "auth_token") (JStr t)]
              else []
            | None => []
            end
            ++ [SetTimeout (if truthy_string (clientIP captured)
                            then WindowClose else Navigate (utf16 "/")) 3000%Z]
  /\ ko = (failed_with (shown_error err) now s, []).
Proof.
  cbv zeta. repeat (split; [reflexivity|]).
  split.
  { intros Hv. now rewrite (handleSubmit_begin_valid host s Hv). }
  split; [destruct tok, err; reflexivity|].
  split.
  - destruct tok as [[|c t]|], err as [e|]; reflexivity.
  - destruct tok as [t|], err as [[|c e]|]; reflexivity.
Qed.

Lemma JSON_null_dec (v : JSON) : v = JNull \/ v <> JNull.
Proof. destruct v; (left; reflexivity) || (right; discriminate). Qed.

(** The body of the [try] block after the two promises resolved with a value
    other than [null]. *)
Lemma handleSubmit_resume_body (captured s : State) (result : JSON) (now : Z) :
  result <> JNull ->
  handleSubmit_resume captured (JsonResolved result) now s
  = if truthy (get_property result (utf16 "success")) then
      (notify now (JStr (utf16 "认证成功！现在可以自由上网了。")) success
         (setAuthStatus SUCCESS s),
       match optional_chain (get_property result (utf16 "data"))
               (utf16 "session_token") with
       | Some tok =>
         if truthy_value tok
         then [LocalStorageSetItem (utf16 "auth_token") tok] else []
       | None => []
       end
       ++ [SetTimeout (if truthy_string (clientIP captured)
                       then WindowClose else Navigate (utf16 "/")) 3000%Z])
    else
      (failed_with (or_else (get_property result (utf16 "error"))
                            (JStr (utf16 "认证失败，请重试"))) now s, []).
Proof. intros Hn. destruct result; try congruence; reflexivity. Qed.

Lemma handleSubmit_catch_no_write (e : Error) (now : Z) (s : State) :
  no_localStorage_write (handleSubmit_catch e now s).2.
Proof. intros k v H. simpl in H. split_mem H. discriminate. Qed.

Lemma handleSubmit_resume_failed (captured s : State) (o : LoginOutcome) (now : Z) :
  login_failed o ->
  exists m, truthy_value m = true
    /\ (handleSubmit_resume captured o now s).1 = failed_with m now s
    /\ no_localStorage_write (handleSubmit_resume captured o now s).2.
Proof.
  intros Hf.
  assert (Hcatch : forall e, exists m, truthy_value m = true
    /\ (handleSubmit_catch e now s).1 = failed_with m now s
    /\ no_localStorage_write (handleSubmit_catch e now s).2).
  { intros e. destruct (handleSubmit_catch_state e now s) as (m & Hm & Heq).
    exists (JStr m). split; [exact Hm|]. split; [now rewrite Heq|].
    apply handleSubmit_catch_no_write. }
  destruct o as [e|e|result]; [exact (Hcatch e) | exact (Hcatch e) |].
  simpl in Hf.
  destruct (JSON_null_dec result) as [->|Hn].
  { apply (Hcatch null_read_error). }
  rewrite (handleSubmit_resume_body captured s result now Hn), Hf.
  exists (or_else (get_property result (utf16 "error"))
                  (JStr (utf16 "认证失败，请重试"))).
  split; [apply or_else_truthy; reflexivity|].
  split; [reflexivity|]. intros k v H. simpl in H. split_mem H.
Qed.

Lemma handleSubmit_resume_write (captured s : State) (o : LoginOutcome)
  (now : Z) (k : jsstring) (v : JSON) :
  LocalStorageSetItem k v ∈ (handleSubmit_resume captured o now s).2 ->
  k = utf16 "auth_token" /\ login_succeeded_with o v.
Proof.
  intros H.
  destruct o as [e|e|result];
    [exfalso; exact (handleSubmit_catch_no_write e now s k v H)
    |exfalso; exact (handleSubmit_catch_no_write e now s k v H)|].
  destruct (JSON_null_dec result) as [->|Hn].
  { exfalso. exact (handleSubmit_catch_no_write null_read_error now s k v H). }
  rewrite (handleSubmit_resume_body captured s result now Hn) in H.
  destruct (truthy (get_property result (utf16 "success"))) eqn:Hs;
    simpl in H; [|split_mem H].
  destruct (optional_chain (get_property result (utf16 "data"))
              (utf16 "session_token")) as [tok|] eqn:Ht;
    [|split_mem H; discriminate].
  destruct (truthy_value tok) eqn:Htok; [|split_mem H; discriminate].
  split_mem H; [|discriminate].
  injection H as -> ->. split; [reflexivity|].
  exists result. repeat split; try assumption.
  intros b Hb. rewrite Hb in Hs. exact Hs.
Qed.

Lemma handleSubmit_valid (host : jsstring) (o : LoginOutcome) (now : Z)
  (s : State) :
  (validateForm s).1 = true ->
  handleSubmit host o now s
  = ((handleSubmit_resume s o now
        (clearErrors (setAuthStatus LOADING (validateForm s).2))).1,
     PreventDefault :: Fetch (loginRequest host (formData s))
     :: (handleSubmit_resume s o now
           (clearErrors (setAuthStatus LOADING (validateForm s).2))).2).
Proof.
  intros Hv. unfold handleSubmit. rewrite (handleSubmit_begin_valid host s Hv).
  now destruct (handleSubmit_resume s o now _).
Qed.

Lemma handleSubmit_invalid (host : jsstring) (o : LoginOutcome) (now : Z)
  (s : State) :
  (validateForm s).1 = false ->
  handleSubmit host o now s = ((validateForm s).2, [PreventDefault]).
Proof.
  intros Hv. unfold handleSubmit. now rewrite (handleSubmit_begin_invalid host s Hv).
Qed.

Lemma handleSubmit_resume_error (captured s : State) (o : LoginOutcome)
  (now : Z) :
  login_failed o ->
  authStatus (handleSubmit_resume captured o now s).1 = ERROR
  /\ (exists m, truthy_value m = true
        /\ read (ErrorMessages.general
                   (errors (handleSubmit_resume captured o now s).1)) = Some m
        /\ (NotificationState.message
              <$> notification (handleSubmit_resume captured o now s).1) = Some m)
  /\ no_localStorage_write (handleSubmit_resume captured o now s).2.
Proof.
  intros Hf.
  destruct (handleSubmit_resume_failed captured s o now Hf) as (m & Hm & Hs & Hw).
  rewrite Hs. split; [reflexivity|]. split; [|exact Hw].
  exists m. repeat split. exact Hm.
Qed.

Lemma handleSubmit_error (host : jsstring) (s : State) (o : LoginOutcome)
  (now : Z) :
  login_failed o -> (validateForm s).1 = true ->
  authStatus (handleSubmit host o now s).1 = ERROR
  /\ is_Some (read (ErrorMessages.general (errors (handleSubmit host o now s).1)))
  /\ no_localStorage_write (handleSubmit host o now s).2.
Proof.
  intros Hf Hv. rewrite (handleSubmit_valid host o now s Hv).
  destruct (handleSubmit_resume_failed s
              (clearErrors (setAuthStatus LOADING (validateForm s).2)) o now Hf)
    as (m & Hm & Hs & Hw).
  cbn [fst snd]. rewrite Hs.
  split; [reflexivity|]. split; [eexists; reflexivity|].
  intros k v H.
  apply elem_of_cons in H as [H|H]; [discriminate|].
  apply elem_of_cons in H as [H|H]; [discriminate|].
  exact (Hw k v H).
Qed.

Lemma handleSubmit_write (host : jsstring) (s : State) (o : LoginOutcome)
  (now : Z) (k : jsstring) (v : JSON) :
  LocalStorageSetItem k v ∈ (handleSubmit host o now s).2 ->
  k = utf16 "auth_token" /\ login_succeeded_with o v.
Proof.
  intros H.
  destruct ((validateForm s).1) eqn:Hv.
  - rewrite (handleSubmit_valid host o now s Hv) in H. cbn [fst snd] in H.
    apply elem_of_cons in H as [H|H]; [discriminate|].
    apply elem_of_cons in H as [H|H]; [discriminate|].
    exact (handleSubmit_resume_write _ _ _ _ _ _ H).
  - rewrite (handleSubmit_invalid host o now s Hv) in H. cbn [fst snd] in H.
    apply elem_of_cons in H as [H|H]; [discriminate|].
    apply elem_of_nil in H. contradiction.
Qed.

(** C8 — Whenever the login call fails (the [fetch] or the body promise is
    rejected, or the body has a falsy [success]), [handleSubmit] leaves
    [authStatus] at ERROR and a non-empty general error message (the one it
    also notifies), and writes nothing to [localStorage].  A write to
    [localStorage] is a write of the key [auth_token], and happens only for
    a body whose [success] is truthy ([true], when it is a boolean) and
    whose [data.session_token] is truthy: the value written. *)
Theorem failed_login_is_error (host : jsstring) (captured s : State)
  (o : LoginOutcome) (now : Z) :
  let r := handleSubmit_resume captured o now s in
  let whole := handleSubmit host o now s in
  (login_failed o ->
     authStatus r.1 = ERROR
     /\ (exists m, truthy_value m = true
                   /\ read (ErrorMessages.general (errors r.1)) = Some m
                   /\ (NotificationState.message <$> notification r.1) = Some m)
     /\ no_localStorage_write r.2)
  /\ (login_failed o -> (validateForm s).1 = true ->
        authStatus whole.1 = ERROR
        /\ is_Some (read (ErrorMessages.general (errors whole.1)))
        /\ no_localStorage_write whole.2)
  /\ (forall k v, LocalStorageSetItem k v ∈ r.2 ->
        k = utf16 "auth_token" /\ login_succeeded_with o v)
  /\ (forall k v, LocalStorageSetItem k v ∈ whole.2 ->
        k = utf16 "auth_token" /\ login_succeeded_with o v).
Proof.
  intros r whole.
  split; [exact (handleSubmit_resume_error captured s o now)|].
  split; [exact (handleSubmit_error host s o now)|].
  split; [exact (handleSubmit_resume_write captured s o now)|].
  exact (handleSubmit_write host s o now).
Qed.

(** A body [{success: false, error: ...}]: ERROR, the server's text shown. *)
Example login_refused :
  let m := utf16 "用户名或密码错误" in
  handleSubmit_resume (filled device_5)
    (JsonResolved (apiResponse false None (Some m))) 7 (filled device_5)
  = (failed_with (JStr m) 7 (filled device_5), []).
Proof. vm_compute. reflexivity. Qed.

(** A rejected [fetch] whose message names fetch. *)
Example login_unreachable :
  let e := {| is_TypeError := true; message := utf16 "Failed to fetch" |} in
  handleSubmit_resume (filled device_5) (FetchRejected e) 7 (filled device_5)
  = (failed_with (JStr (utf16 "无法连接到认证服务器，请检查网络连接")) 7
       (filled device_5),
     [ConsoleError (utf16 "认证请求失败:") e]).
Proof. vm_compute. reflexivity. Qed.

(** A body [null]: the property read throws, the [catch] block runs. *)
Example login_null_body :
  handleSubmit_resume (filled device_5) (JsonResolved JNull) 7 (filled device_5)
  = (failed_with (JStr (utf16 "网络连接失败，请检查网络设置后重试")) 7
       (filled device_5),
     [ConsoleError (utf16 "认证请求失败:") null_read_error]).
Proof. vm_compute. reflexivity. Qed.

(** A successful login of a page opened through the redirect. *)
Example login_accepted :
  (handleSubmit portal_host
     (JsonResolved (apiResponse true (Some (utf16 "tok-1")) None)) 7
     (filled device_5)).2
  = [PreventDefault;
     Fetch (loginRequest portal_host (formData (filled device_5)));
     LocalStorageSetItem (utf16 "auth_token") (JStr (utf16 "tok-1"));
     SetTimeout WindowClose 3000%Z].
Proof. vm_compute. reflexivity. Qed.

End LoginCall.

(* ===================================================================== *)
(** * The logout call and the device address                              *)
(* ===================================================================== *)

Section Device.

Lemma readClientIP_single (ip : jsstring) (s : State) :
  ip <> [] -> readClientIP [(utf16 "client_ip", ip)] s = setClientIP ip s.
Proof.
  intros Hip. unfold readClientIP. simpl.
  destruct ip; [congruence | reflexivity].
Qed.

(** The login request is the same for two devices: no function of the
    request yields the [client_ip] of the page that sent it. *)
Lemma login_request_is_anonymous : ~ login_request_names_device.
Proof.
  intros [f Hf].
  assert (H5 := Hf portal_host (filled device_5)
                  (loginRequest portal_host (formData (filled device_5)))).
  assert (H6 := Hf portal_host (filled device_6)
                  (loginRequest portal_host (formData (filled device_5)))).
  assert (Hin : forall ip,
    Fetch (loginRequest portal_host (formData (filled device_5)))
    ∈ [PreventDefault;
       Fetch (loginRequest portal_host (formData (filled ip)))]).
  { intros ip. apply elem_of_cons; right. apply elem_of_cons; left. reflexivity. }
  specialize (H5 (Hin device_5)). specialize (H6 (Hin device_6)).
  rewrite H5 in H6. vm_compute in H6. discriminate.
Qed.

(** C4 — The redirect for an unauthenticated plain-HTTP request points at
    the authentication page and carries the device address as the query
    parameter [client_ip]; the page opened through it reads that address
    into [clientIP].  The login request does not depend on [clientIP]: its
    body has no [client_ip] field, and two pages that differ only in the
    address send the same request.  The address is sent by the logout
    request. *)
Theorem client_ip_round_trip (authPage host : jsstring) (now : Z)
  (req : Portal.PendingRequest) (st : Portal.Store) (s : State) (ip : jsstring) :
  let location :=
    {| Portal.page := authPage;
       Portal.query := [(utf16 "client_ip", Portal.sourceAddress req)] |} in
  Portal.execute authPage Portal.REDIRECT_AUTH req = Portal.Redirect location
  /\ (Portal.view_state (Portal.get now (Portal.sourceAddress req) st).1
        = Portal.UNAUTHENTICATED ->
      Portal.scheme req = Portal.PlainHTTP ->
      (Portal.intercept true authPage now req st).1 = Portal.Redirect location)
  /\ (Portal.sourceAddress req <> [] ->
      clientIP (readClientIP (Portal.query location) s) = Portal.sourceAddress req)
  /\ (handleSubmit_begin host (setClientIP ip s)).1.2 = (handleSubmit_begin host s).1.2
  /\ get_property (body (loginRequest host (formData s))) (utf16 "client_ip") = None
  /\ handleLogout_begin host (setClientIP ip s) = [Fetch (logoutRequest host ip)]
  /\ get_property (body (logoutRequest host ip)) (utf16 "client_ip") = Some (JStr ip).
Proof.
  cbv zeta.
  split; [reflexivity|].
  split.
  { intros Hv Hs. unfold Portal.intercept, Portal.decide, Portal.commit.
    destruct (Portal.get now (Portal.sourceAddress req) st) as [v st'].
    simpl in *. rewrite Hv, Hs. reflexivity. }
  split.
  { intros Ha. simpl. now rewrite (readClientIP_single _ s Ha). }
  split.
  { unfold handleSubmit_begin.
    destruct (validateForm s) as [ok s1] eqn:Hv.
    assert (Hv' : validateForm (setClientIP ip s) = (ok, setClientIP ip s1)).
    { unfold validateForm in *. injection Hv as <- <-. reflexivity. }
    rewrite Hv'. destruct ok; reflexivity. }
  repeat split.
Qed.

(** C7 — The logout request of the page is a POST to [/api/auth/logout]
    (on port 8080 of the page's host) whose JSON body has exactly the field
    [client_ip]; [handleLogout] sends it whatever the state.  On a working
    store, [logout] removes the session and reports success, also when
    there was no session for the address: the store is then unchanged. *)
Theorem logout_call_shape (host : jsstring) (s : State) (now : Z)
  (a : Portal.Address) (st : Portal.Store) :
  let req := logoutRequest host (clientIP s) in
  handleLogout_begin host s = [Fetch req]
  /\ Page.method req = utf16 "POST"
  /\ url req = utf16 "http://" ++ host ++ utf16 ":8080/api/auth/logout"
  /\ body req = JObj [(utf16 "client_ip", JStr (clientIP s))]
  /\ Portal.logout true a st = (Portal.LoggedOut, Portal.remove a st)
  /\ (Portal.get now a (Portal.logout true a st).2).1 = Portal.unauthenticated
  /\ (st !! a = None -> Portal.logout true a st = (Portal.LoggedOut, st)).
Proof.
  cbv zeta. repeat (split; [reflexivity|]).
  split.
  { simpl. unfold Portal.get, Portal.remove. now rewrite lookup_delete_eq. }
  intros Ha. unfold Portal.logout, Portal.commit, Portal.remove.
  now rewrite delete_id.
Qed.

End Device.

(* ===================================================================== *)
(** * The session core                                                    *)
(* ===================================================================== *)

Section Core.

Lemma get_view (now : Z) (a : Portal.Address) (st : Portal.Store) :
  (Portal.get now a st).1 =
  match st !! a with
  | Some r =>
    match Portal.state r with
    | Portal.AUTHENTICATED =>
      if (now <? Portal.expires_at r)%Z
      then {| Portal.view_state := Portal.AUTHENTICATED;
              Portal.view_token := Portal.token r |}
      else Portal.unauthenticated
    | Portal.UNAUTHENTICATED => Portal.unauthenticated
    end
  | None => Portal.unauthenticated
  end.
Proof.
  unfold Portal.get. destruct (st !! a) as [r|]; [|reflexivity].
  destruct (Portal.state r); [reflexivity|].
  destruct (now <? Portal.expires_at r)%Z; reflexivity.
Qed.

(** C1 — On a working store, [decide] returns the action that the session
    state of the source address and the scheme of the request determine:
    FORWARD when the session is AUTHENTICATED; REDIRECT_AUTH when it is
    UNAUTHENTICATED and the request is plain HTTP; REJECT when it is
    UNAUTHENTICATED and the request asks for a tunnel.  Two calls that see
    the same session state and the same scheme return the same action, and
    these three cases are all there are. *)
Theorem decide_three_branches (now : Z) (req : Portal.PendingRequest)
  (st : Portal.Store) :
  let seen := Portal.view_state (Portal.get now (Portal.sourceAddress req) st).1 in
  let action := (Portal.decide true now req st).1 in
  action = Portal.verdict seen (Portal.scheme req)
  /\ (seen = Portal.AUTHENTICATED -> action = Portal.FORWARD)
  /\ (seen = Portal.UNAUTHENTICATED -> Portal.scheme req = Portal.PlainHTTP ->
      action = Portal.REDIRECT_AUTH)
  /\ (seen = Portal.UNAUTHENTICATED -> Portal.scheme req = Portal.Tunnelled ->
      action = Portal.REJECT)
  /\ (forall now' req' st',
        Portal.view_state (Portal.get now' (Portal.sourceAddress req') st').1 = seen ->
        Portal.scheme req' = Portal.scheme req ->
        (Portal.decide true now' req' st').1 = action)
  /\ (seen = Portal.AUTHENTICATED
      \/ seen = Portal.UNAUTHENTICATED /\ Portal.scheme req = Portal.PlainHTTP
      \/ seen = Portal.UNAUTHENTICATED /\ Portal.scheme req = Portal.Tunnelled).
Proof.
  cbv zeta.
  assert (Hd : forall now req st,
    (Portal.decide true now req st).1
    = Portal.verdict
        (Portal.view_state (Portal.get now (Portal.sourceAddress req) st).1)
        (Portal.scheme req)).
  { intros now0 req0 st0. unfold Portal.decide, Portal.commit.
    now destruct (Portal.get now0 (Portal.sourceAddress req0) st0). }
  rewrite Hd.
  split; [reflexivity|].
  split; [intros ->; reflexivity|].
  split; [intros -> ->; reflexivity|].
  split; [intros -> ->; reflexivity|].
  split; [intros now' req' st' Hs Hc; now rewrite Hd, Hs, Hc|].
  destruct (Portal.view_state _), (Portal.scheme req); auto.
Qed.

(** C2 — When the lookup of the session fails with a storage I/O error,
    [decide] does not return FORWARD: it returns REJECT, and the store is
    what it was — also when the store holds a valid session for the
    address. *)
Theorem decide_fail_closed (healthy : bool) (now : Z)
  (req : Portal.PendingRequest) (st : Portal.Store) :
  Portal.commit healthy (Portal.get now (Portal.sourceAddress req) st)
    = Portal.StoreIOError ->
  (Portal.decide healthy now req st).1 <> Portal.FORWARD
  /\ ((Portal.decide healthy now req st).1 = Portal.REJECT
      \/ (Portal.decide healthy now req st).1 = Portal.REDIRECT_AUTH)
  /\ Portal.decide healthy now req st = (Portal.REJECT, st).
Proof.
  intros H. unfold Portal.decide. rewrite H. simpl.
  split; [discriminate|]. split; [left|]; reflexivity.
Qed.

(** C5 — After [remove a], [get a] returns UNAUTHENTICATED whatever the
    store held; a second [remove a] leaves the store of the first, so every
    later [get] sees the same; removing an address that has no session
    changes nothing. *)
Theorem remove_then_get (now : Z) (a : Portal.Address) (st : Portal.Store) :
  Portal.get now a (Portal.remove a st)
    = (Portal.unauthenticated, Portal.remove a st)
  /\ Portal.remove a (Portal.remove a st) = Portal.remove a st
  /\ (forall now' b,
        Portal.get now' b (Portal.remove a (Portal.remove a st))
        = Portal.get now' b (Portal.remove a st))
  /\ (st !! a = None -> Portal.remove a st = st).
Proof.
  assert (H2 : Portal.remove a (Portal.remove a st) = Portal.remove a st).
  { unfold Portal.remove. apply delete_delete_eq. }
  split.
  { unfold Portal.get, Portal.remove. now rewrite lookup_delete_eq. }
  split; [exact H2|].
  split; [intros now' b; now rewrite H2|].
  intros Ha. unfold Portal.remove. now apply delete_id.
Qed.

(** C6 — A login whose credential pair is not the configured one returns
    InvalidCredentials and leaves the store as it was: every session in it,
    a valid session of the same address included, reads as before. *)
Theorem login_mismatch (healthy : bool) (cfg : Portal.Credentials)
  (now ttl : Z) (newToken : Portal.Token) (a : Portal.Address)
  (u p : jsstring) (st : Portal.Store) :
  (u, p) <> (Portal.username cfg, Portal.password cfg) ->
  Portal.login healthy cfg now ttl newToken a u p st
    = (inr Portal.InvalidCredentials, st)
  /\ (forall now' b,
        Portal.get now' b (Portal.login healthy cfg now ttl newToken a u p st).2
        = Portal.get now' b st).
Proof.
  intros Hne.
  assert (Hl : Portal.login healthy cfg now ttl newToken a u p st
               = (inr Portal.InvalidCredentials, st)).
  { unfold Portal.login.
    destruct (str_eqb u (Portal.username cfg)) eqn:Hu; [|reflexivity].
    destruct (str_eqb p (Portal.password cfg)) eqn:Hp; [|reflexivity].
    apply str_eqb_eq in Hu, Hp. subst. congruence. }
  split; [exact Hl|]. intros now' b. now rewrite Hl.
Qed.

Lemma decide_fail_closed_witness :
  Portal.decide false 200 plain_request_5 session_5 = (Portal.REJECT, session_5).
Proof.
  apply (decide_fail_closed false 200 plain_request_5 session_5).
  reflexivity.
Defined.

Lemma login_mismatch_witness :
  Portal.login true configured 200 3600 (utf16 "tok-2") device_5
    (utf16 "addyya") (utf16 "wrong") session_5
  = (inr Portal.InvalidCredentials, session_5).
Proof.
  apply (login_mismatch true configured 200 3600 (utf16 "tok-2") device_5
           (utf16 "addyya") (utf16 "wrong") session_5).
  vm_compute. intros H. discriminate H.
Defined.

(** The scenarios of one device: redirect, refused tunnel, login, forward,
    expiry, logout. *)
Example scenario_redirect :
  (Portal.intercept true (utf16 "http://192.168.1.1:5173/") 50 plain_request_5 ∅).1
  = Portal.Redirect {| Portal.page := utf16 "http://192.168.1.1:5173/";
                       Portal.query := [(utf16 "client_ip", device_5)] |}.
Proof. reflexivity. Qed.

Example scenario_tunnel_refused :
  (Portal.decide true 50 tunnel_request_5 ∅).1 = Portal.REJECT.
Proof. reflexivity. Qed.

Example scenario_login :
  Portal.login true configured 100 3600 (utf16 "tok-1") device_5
    (utf16 "addyya") (utf16 "sf123123") ∅
  = (inl (utf16 "tok-1"), session_5).
Proof. reflexivity. Qed.

Example scenario_forward :
  (Portal.decide true 200 tunnel_request_5 session_5).1 = Portal.FORWARD.
Proof. vm_compute. reflexivity. Qed.

Example scenario_expired :
  (Portal.decide true 3700 plain_request_5 session_5).1 = Portal.REDIRECT_AUTH.
Proof. vm_compute. reflexivity. Qed.

Example scenario_logout :
  (Portal.decide true 200 plain_request_5
     (Portal.logout true device_5 session_5).2).1 = Portal.REDIRECT_AUTH.
Proof. vm_compute. reflexivity. Qed.

End Core.

(* ===================================================================== *)
(** * The mount effect and the form fields                                *)
(* ===================================================================== *)

Section Form.

Lemma URLSearchParams_get_none (ps : URLSearchParams) (k : jsstring) :
  Forall (fun nv => nv.1 <> k) ps -> URLSearchParams_get ps k = None.
Proof.
  induction 1 as [|[n v] r Hn _ IH]; simpl; [reflexivity|].
  apply str_eqb_neq in Hn. simpl in Hn. now rewrite Hn.
Qed.

Lemma URLSearchParams_get_first (pre post : URLSearchParams) (k v : jsstring) :
  Forall (fun nv => nv.1 <> k) pre ->
  URLSearchParams_get (pre ++ (k, v) :: post) k = Some v.
Proof.
  induction 1 as [|[n w] r Hn _ IH]; simpl.
  - assert (H : str_eqb k k = true) by now apply str_eqb_eq.
    now rewrite H.
  - apply str_eqb_neq in Hn. simpl in Hn. now rewrite Hn.
Qed.

Lemma readClientIP_frame (ps : URLSearchParams) (s : State) :
  formData (readClientIP ps s) = formData s
  /\ authStatus (readClientIP ps s) = authStatus s
  /\ errors (readClientIP ps s) = errors s
  /\ showPassword (readClientIP ps s) = showPassword s
  /\ notification (readClientIP ps s) = notification s.
Proof.
  unfold readClientIP.
  destruct (URLSearchParams_get ps (utf16 "client_ip")) as [ip|];
    [destruct (truthy_string ip)|]; repeat split.
Qed.

(** X1 — The mount effect takes the value of the first [client_ip]
    parameter of the query string, whatever precedes or follows it, and
    stores it in [clientIP] when it is not empty.  With no such parameter,
    or an empty first value, the state is unchanged.  No other cell of the
    state is written. *)
Theorem readClientIP_first_value (ps : URLSearchParams) (s : State) :
  (Forall (fun nv => nv.1 <> utf16 "client_ip") ps -> readClientIP ps s = s)
  /\ (forall pre ip post,
        ps = pre ++ (utf16 "client_ip", ip) :: post ->
        Forall (fun nv => nv.1 <> utf16 "client_ip") pre ->
        readClientIP ps s = if truthy_string ip then setClientIP ip s else s)
  /\ (forall pre post,
        ps = pre ++ (utf16 "client_ip", []) :: post ->
        Forall (fun nv => nv.1 <> utf16 "client_ip") pre ->
        readClientIP ps s = s)
  /\ formData (readClientIP ps s) = formData s
  /\ authStatus (readClientIP ps s) = authStatus s
  /\ errors (readClientIP ps s) = errors s
  /\ showPassword (readClientIP ps s) = showPassword s
  /\ notification (readClientIP ps s) = notification s.
Proof.
  split.
  { intros H. unfold readClientIP. now rewrite (URLSearchParams_get_none _ _ H). }
  split.
  { intros pre ip post -> H. unfold readClientIP.
    now rewrite (URLSearchParams_get_first pre post _ ip H). }
  split.
  { intros pre post -> H. unfold readClientIP.
    now rewrite (URLSearchParams_get_first pre post _ [] H). }
  apply readClientIP_frame.
Qed.

(** A query string with two [client_ip] parameters: the first one counts. *)
Example readClientIP_duplicate :
  clientIP (readClientIP [(utf16 "lang", utf16 "zh");
                          (utf16 "client_ip", device_5);
                          (utf16 "client_ip", device_6)] initialState)
  = device_5.
Proof. vm_compute. reflexivity. Qed.

Lemma handleInputChange_formData (captured s : State) (field : Field)
  (value : jsstring) :
  formData (handleInputChange captured field value s)
  = FormData.set field value (formData s).
Proof.
  unfold handleInputChange.
  now destruct (truthy_opt_string (ErrorMessages.get field (errors captured))).
Qed.

Lemma handleInputChange_errors (captured s : State) (field : Field)
  (value : jsstring) :
  errors (handleInputChange captured field value s)
  = if truthy_opt_string (ErrorMessages.get field (errors captured))
    then ErrorMessages.set_undefined field (errors s)
    else errors s.
Proof.
  unfold handleInputChange.
  now destruct (truthy_opt_string (ErrorMessages.get field (errors captured))).
Qed.

Lemma handleInputChange_rest (captured s : State) (field : Field)
  (value : jsstring) :
  authStatus (handleInputChange captured field value s) = authStatus s
  /\ showPassword (handleInputChange captured field value s) = showPassword s
  /\ clientIP (handleInputChange captured field value s) = clientIP s
  /\ notification (handleInputChange captured field value s) = notification s.
Proof.
  unfold handleInputChange.
  destruct (truthy_opt_string (ErrorMessages.get field (errors captured)));
    repeat split.
Qed.

(** X2 — [handleInputChange] stores the typed value, as it is, in the field
    it is bound to and leaves the other field alone.  When the render whose
    closure runs showed an error for that field, the field's error is
    overwritten with [undefined]; otherwise [errors] is untouched.  The
    other field's error and the general error are never cleared by typing,
    and [authStatus], [showPassword], [clientIP] and the notification are
    not written. *)
Theorem handleInputChange_frame (captured s : State) (field : Field)
  (value : jsstring) :
  let s' := handleInputChange captured field value s in
  FormData.get field (formData s') = value
  /\ (forall other, other <> field ->
        FormData.get other (formData s') = FormData.get other (formData s)
        /\ ErrorMessages.get other (errors s') = ErrorMessages.get other (errors s))
  /\ ErrorMessages.general (errors s') = ErrorMessages.general (errors s)
  /\ (truthy_opt_string (ErrorMessages.get field (errors captured)) = true ->
        ErrorMessages.get field (errors s') = None)
  /\ (truthy_opt_string (ErrorMessages.get field (errors captured)) = false ->
        errors s' = errors s)
  /\ authStatus s' = authStatus s
  /\ showPassword s' = showPassword s
  /\ clientIP s' = clientIP s
  /\ notification s' = notification s.
Proof.
  intros s'. subst s'.
  rewrite handleInputChange_formData, handleInputChange_errors.
  split; [destruct field; reflexivity|].
  split.
  { intros other Hne.
    destruct (truthy_opt_string (ErrorMessages.get field (errors captured)));
      destruct field, other; try congruence; split; reflexivity. }
  split.
  { destruct (truthy_opt_string (ErrorMessages.get field (errors captured)));
      destruct field; reflexivity. }
  split; [intros ->; destruct field; reflexivity|].
  split; [intros ->; reflexivity|].
  apply handleInputChange_rest.
Qed.

Lemma validateForm_errors (s : State) :
  errors (validateForm s).2
  = {| ErrorMessages.username :=
         if forallb is_white_space (FormData.username (formData s))
         then Some (Some (utf16 "请输入用户名")) else None;
       ErrorMessages.password :=
         if truthy_string (FormData.password (formData s))
         then None else Some (Some (utf16 "请输入密码"));
       ErrorMessages.general := None |}.
Proof.
  unfold validateForm. rewrite truthy_trim.
  destruct (forallb is_white_space (FormData.username (formData s)));
    destruct (truthy_string (FormData.password (formData s))); reflexivity.
Qed.

(** X3 — [validateForm] checks both fields on every call and replaces the
    whole [errors] object by what it found: a blank username and an empty
    password are reported together, a field that passes has no key, and a
    general error left by an earlier login is dropped.  It accepts the form
    exactly when the new object is empty.  Nothing but [errors] is written,
    so a submit that is refused leaves [authStatus] where it was. *)
Theorem validateForm_reports_all (host : jsstring) (s : State) :
  let u := FormData.username (formData s) in
  let p := FormData.password (formData s) in
  let s' := (validateForm s).2 in
  (whitespace_only u ->
     ErrorMessages.username (errors s') = Some (Some (utf16 "请输入用户名")))
  /\ (has_non_whitespace u -> ErrorMessages.username (errors s') = None)
  /\ (p = [] -> ErrorMessages.password (errors s') = Some (Some (utf16 "请输入密码")))
  /\ (p <> [] -> ErrorMessages.password (errors s') = None)
  /\ ErrorMessages.general (errors s') = None
  /\ ((validateForm s).1 = true <-> errors s' = ErrorMessages.empty)
  /\ ((validateForm s).1 = false ->
        handleSubmit_begin host s = (s', [PreventDefault], false)
        /\ authStatus s' = authStatus s /\ formData s' = formData s)
  /\ showPassword s' = showPassword s
  /\ clientIP s' = clientIP s
  /\ notification s' = notification s.
Proof.
  intros u p s'. subst u p s'.
  rewrite validateForm_errors, validateForm_verdict.
  split.
  { intros H. apply whitespace_only_forallb in H. now rewrite H. }
  split.
  { intros H. apply has_non_whitespace_forallb in H. now rewrite H. }
  split; [intros ->; reflexivity|].
  split.
  { intros H. apply truthy_string_true in H. now rewrite H. }
  split; [reflexivity|].
  split.
  { destruct (forallb is_white_space (FormData.username (formData s)));
      destruct (truthy_string (FormData.password (formData s))); simpl;
      unfold ErrorMessages.empty; split; congruence. }
  split.
  { intros Hv. rewrite <- validateForm_verdict in Hv.
    rewrite (handleSubmit_begin_invalid host s Hv). repeat split. }
  repeat split.
Qed.

(** X4 — What the user typed is what is sent.  After a value with a
    non-blank character is typed into the username field and a non-empty
    value into the password field, a submit is accepted and its one request
    carries exactly these two values: the username is trimmed for the check
    only, not in the request. *)
Theorem typed_credentials_are_sent (host : jsstring) (c1 c2 s : State)
  (u p : jsstring) :
  has_non_whitespace u -> p <> [] ->
  let typed := handleInputChange c2 Password p (handleInputChange c1 Username u s) in
  (handleSubmit_begin host typed).1.2
  = [PreventDefault;
     Fetch (loginRequest host {| FormData.username := u; FormData.password := p |})]
  /\ body (loginRequest host (formData typed))
     = JObj [(utf16 "username", JStr u); (utf16 "password", JStr p)]
  /\ (handleSubmit_begin host typed).2 = true
  /\ authStatus (handleSubmit_begin host typed).1.1 = LOADING
  /\ errors (handleSubmit_begin host typed).1.1 = ErrorMessages.empty.
Proof.
  intros Hu Hp typed.
  assert (Hfd : formData typed
                = {| FormData.username := u; FormData.password := p |}).
  { subst typed. now rewrite !handleInputChange_formData. }
  assert (Hv : (validateForm typed).1 = true).
  { apply validateForm_true. rewrite Hfd. simpl. auto. }
  rewrite (handleSubmit_begin_valid host typed Hv), Hfd.
  repeat split.
Qed.

Lemma typed_credentials_are_sent_witness :
  (handleSubmit_begin portal_host
     (handleInputChange initialState Password (utf16 "sf123123")
        (handleInputChange initialState Username (utf16 " addyya ")
           initialState))).1.2
  = [PreventDefault;
     Fetch (loginRequest portal_host
              {| FormData.username := utf16 " addyya ";
                 FormData.password := utf16 "sf123123" |})].
Proof.
  apply (typed_credentials_are_sent portal_host initialState initialState
           initialState (utf16 " addyya ") (utf16 "sf123123")).
  - apply has_non_whitespace_forallb. vm_compute. reflexivity.
  - vm_compute. intros H. discriminate H.
Defined.

Lemma State_eta (s : State) :
  s = {| formData := formData s; authStatus := authStatus s;
         errors := errors s; showPassword := showPassword s;
         clientIP := clientIP s; notification := notification s |}.
Proof. now destruct s. Qed.

(** X5 — [togglePasswordVisibility] flips [showPassword] and nothing else:
    twice in a row it gives the state back.  Each click switches the
    password input between [password] and [text], and the typed password
    and the other cells are as before. *)
Theorem togglePasswordVisibility_flips (s : State) :
  let s' := togglePasswordVisibility s in
  togglePasswordVisibility s' = s
  /\ showPassword s' = negb (showPassword s)
  /\ input_type (password_input (render s'))
     = (if showPassword s then utf16 "password" else utf16 "text")
  /\ input_type (password_input (render s'))
     <> input_type (password_input (render s))
  /\ input_value (password_input (render s'))
     = FormData.password (formData s)
  /\ formData s' = formData s
  /\ authStatus s' = authStatus s
  /\ errors s' = errors s
  /\ clientIP s' = clientIP s
  /\ notification s' = notification s.
Proof.
  intros s'. subst s'.
  split.
  { rewrite (State_eta s) at 2. unfold togglePasswordVisibility, setShowPassword.
    simpl. now rewrite negb_involutive. }
  split; [reflexivity|].
  split; [simpl; now destruct (showPassword s)|].
  split; [simpl; destruct (showPassword s); vm_compute; intros H; discriminate H|].
  repeat split.
Qed.

End Form.

(* ===================================================================== *)
(** * Settlement of the login and logout calls                            *)
(* ===================================================================== *)

Section Settlement.

Lemma startsWith_spec (s p : jsstring) :
  startsWith s p = true <-> exists r, s = p ++ r.
Proof.
  revert s. induction p as [|a p IH]; intros s.
  - split; [intros _; now exists s | now destruct s].
  - destruct s as [|b s]; simpl.
    + split; [discriminate | intros [r Hr]; discriminate Hr].
    + rewrite andb_true_iff, N.eqb_eq, IH. split.
      * intros [-> [r ->]]. now exists r.
      * intros [r Hr]. injection Hr as -> ->. split; [reflexivity | now exists r].
Qed.

Lemma includes_unfold (s p : jsstring) :
  includes s p
  = startsWith s p || match s with [] => false | _ :: r => includes r p end.
Proof. now destruct s. Qed.

Lemma includes_spec (s p : jsstring) :
  includes s p = true <-> exists l r, s = l ++ p ++ r.
Proof.
  induction s as [|c s IH]; rewrite includes_unfold, orb_true_iff, startsWith_spec.
  - split.
    + intros [[r Hr]|H]; [|discriminate]. now exists [], r.
    + intros (l & r & H). left.
      destruct l; [now exists r | discriminate H].
  - rewrite IH. split.
    + intros [[r Hr]|(l & r & ->)]; [now exists [], r | now exists (c :: l), r].
    + intros (l & r & H). destruct l as [|c' l].
      * left. now exists r.
      * right. injection H as -> ->. now exists l, r.
Qed.

(** X6 — The [catch] block of [handleSubmit] tells two failures apart by the
    error it caught: a [TypeError] whose message contains the word fetch
    gives the text that the server cannot be reached, every other error the
    text that the network failed.  The text is shown both as notification
    and as general error, the error is logged, and a body that cannot be
    parsed takes the same path as a rejected [fetch]. *)
Theorem catch_message_selection (captured s : State) (e : Error) (now : Z) :
  let r := handleSubmit_catch e now s in
  let names_fetch :=
    is_TypeError e = true /\ exists l t, message e = l ++ utf16 "fetch" ++ t in
  (names_fetch ->
     read (ErrorMessages.general (errors r.1))
     = Some (JStr (utf16 "无法连接到认证服务器，请检查网络连接")))
  /\ (~ names_fetch ->
     read (ErrorMessages.general (errors r.1))
     = Some (JStr (utf16 "网络连接失败，请检查网络设置后重试")))
  /\ (NotificationState.message <$> notification r.1)
     = read (ErrorMessages.general (errors r.1))
  /\ r.2 = [ConsoleError (utf16 "认证请求失败:") e]
  /\ handleSubmit_resume captured (FetchRejected e) now s = r
  /\ handleSubmit_resume captured (JsonRejected e) now s = r.
Proof.
  intros r names_fetch. subst r names_fetch.
  assert (Hm : read (ErrorMessages.general (errors (handleSubmit_catch e now s).1))
    = Some (JStr (if is_TypeError e && includes (Js.message e) (utf16 "fetch")
                  then utf16 "无法连接到认证服务器，请检查网络连接"
                  else utf16 "网络连接失败，请检查网络设置后重试")))
    by reflexivity.
  rewrite Hm.
  split.
  { intros [Ht Hi]. apply includes_spec in Hi. now rewrite Ht, Hi. }
  split.
  { intros Hn.
    destruct (is_TypeError e && includes (Js.message e) (utf16 "fetch")) eqn:Hc;
      [|reflexivity].
    exfalso. apply Hn. apply andb_true_iff in Hc as [Ht Hi].
    split; [exact Ht | now apply includes_spec]. }
  repeat split.
Qed.

(** A body that is not JSON: the body promise is rejected with a
    [SyntaxError], and the page reports a network failure. *)
Example login_unparsable :
  read (ErrorMessages.general (errors
    (handleSubmit_resume (filled device_5)
       (JsonRejected {| is_TypeError := false;
                        message := utf16 "Unexpected token < in JSON" |})
       7 (filled device_5)).1))
  = Some (JStr (utf16 "网络连接失败，请检查网络设置后重试")).
Proof. vm_compute. reflexivity. Qed.

Lemma login_failed_dec (o : LoginOutcome) : login_failed o \/ ~ login_failed o.
Proof.
  destruct o as [e|e|result]; simpl; auto.
  destruct (truthy (get_property result (utf16 "success"))); auto.
Qed.

Lemma handleSubmit_resume_succeeded (captured s : State) (o : LoginOutcome)
  (now : Z) :
  ~ login_failed o ->
  exists store,
    handleSubmit_resume captured o now s
    = (notify now (JStr (utf16 "认证成功！现在可以自由上网了。")) success
         (setAuthStatus SUCCESS s),
       store ++ [SetTimeout (if truthy_string (clientIP captured)
                             then WindowClose else Navigate (utf16 "/")) 3000%Z])
    /\ (store = []
        \/ exists v, store = [LocalStorageSetItem (utf16 "auth_token") v]).
Proof.
  intros Hs.
  destruct o as [e|e|result]; simpl in Hs; try tauto.
  destruct (JSON_null_dec result) as [->|Hn]; [simpl in Hs; tauto|].
  rewrite (handleSubmit_resume_body captured s result now Hn).
  destruct (truthy (get_property result (utf16 "success"))); [|tauto].
  destruct (optional_chain (get_property result (utf16 "data"))
              (utf16 "session_token")) as [tok|];
    [destruct (truthy_value tok)|]; eexists; split; try reflexivity; eauto.
Qed.


Lemma handleSubmit_resume_independent (captured s s' : State)
  (o : LoginOutcome) (now : Z) :
  (handleSubmit_resume captured o now s).2 = (handleSubmit_resume captured o now s').2
  /\ authStatus (handleSubmit_resume captured o now s).1
     = authStatus (handleSubmit_resume captured o now s').1
  /\ notification (handleSubmit_resume captured o now s).1
     = notification (handleSubmit_resume captured o now s').1.
Proof.
  destruct o as [e|e|result]; try (repeat split; reflexivity).
  destruct (JSON_null_dec result) as [->|Hn]; [repeat split; reflexivity|].
  rewrite !(handleSubmit_resume_body captured _ result now Hn).
  destruct (truthy (get_property result (utf16 "success"))); repeat split.
Qed.

Lemma is_loading_iff (a : AuthStatus) : is_loading a = true <-> a = LOADING.
Proof. destruct a; vm_compute; split; congruence. Qed.

Lemma is_success_iff (a : AuthStatus) : is_success a = true <-> a = SUCCESS.
Proof. destruct a; vm_compute; split; congruence. Qed.

Lemma render_loading (s : State) :
  submit_disabled (render s) = true <-> authStatus s = LOADING.
Proof. apply is_loading_iff. Qed.

Lemma render_success (s : State) :
  logout_button (render s) = true <-> authStatus s = SUCCESS.
Proof. apply is_success_iff. Qed.

(** X8 — Escape during a login does not cancel it.  While the request is
    in flight the reset button is not rendered, but the key handler still
    runs [handleReset]: the page is back at IDLE with an empty form and an
    enabled submit button.  When the call then settles, the handler does
    what it would have done without the reset: the same effects (the token
    is stored, the timer armed), the same [authStatus] and notification,
    now over the emptied form. *)
Theorem escape_does_not_cancel (host : jsstring) (s : State)
  (o : LoginOutcome) (now : Z) :
  (validateForm s).1 = true ->
  let pending := (handleSubmit_begin host s).1.1 in
  let cleared := handleKeyDown (utf16 "Escape") pending in
  authStatus pending = LOADING
  /\ reset_button (render pending) = false
  /\ authStatus cleared = IDLE
  /\ submit_disabled (render cleared) = false
  /\ (handleSubmit_resume s o now cleared).2 = (handleSubmit_resume s o now pending).2
  /\ authStatus (handleSubmit_resume s o now cleared).1
     = authStatus (handleSubmit_resume s o now pending).1
  /\ notification (handleSubmit_resume s o now cleared).1
     = notification (handleSubmit_resume s o now pending).1
  /\ formData (handleSubmit_resume s o now cleared).1
     = {| FormData.username := []; FormData.password := [] |}.
Proof.
  intros Hv pending cleared. subst pending cleared.
  rewrite (handleSubmit_begin_valid host s Hv). cbn [fst snd].
  rewrite handleKeyDown_escape.
  split; [reflexivity|]. split; [reflexivity|].
  split; [reflexivity|]. split; [reflexivity|].
  destruct (handleSubmit_resume_independent s
              (handleReset (clearErrors (setAuthStatus LOADING (validateForm s).2)))
              (clearErrors (setAuthStatus LOADING (validateForm s).2)) o now)
    as (He & Ha & Hn).
  split; [exact He|]. split; [exact Ha|]. split; [exact Hn|].
  destruct (login_failed_dec o) as [Hf|Hs].
  - destruct (handleSubmit_resume_failed s
                (handleReset (clearErrors (setAuthStatus LOADING (validateForm s).2)))
                o now Hf) as (m & _ & Heq & _).
    now rewrite Heq.
  - destruct (handleSubmit_resume_succeeded s
                (handleReset (clearErrors (setAuthStatus LOADING (validateForm s).2)))
                o now Hs) as (store & Heq & _).
    now rewrite Heq.
Qed.

Lemma escape_does_not_cancel_witness :
  (handleSubmit_resume (filled device_5)
     (JsonResolved (apiResponse true (Some (utf16 "tok-1")) None)) 7
     (handleKeyDown (utf16 "Escape")
        (handleSubmit_begin portal_host (filled device_5)).1.1)).2
  = (handleSubmit_resume (filled device_5)
       (JsonResolved (apiResponse true (Some (utf16 "tok-1")) None)) 7
       (handleSubmit_begin portal_host (filled device_5)).1.1).2.
Proof.
  apply (escape_does_not_cancel portal_host (filled device_5)
           (JsonResolved (apiResponse true (Some (utf16 "tok-1")) None)) 7).
  vm_compute. reflexivity.
Defined.

(** X9 — A logout call that resolves (whatever the server answered: the
    response is not read) shows the confirmation, resets the form as
    [handleReset] does and reloads the page after a second and a half; the
    logout button is gone.  A call that is rejected is logged and reported,
    and changes nothing else: no reload is scheduled, the form and
    [authStatus] stay, so the logout button is still there. *)
Theorem handleLogout_outcomes (host : jsstring) (s : State) (e : Error)
  (now : Z) :
  let ok := handleLogout host LogoutResolved now s in
  let ko := handleLogout host (LogoutRejected e) now s in
  ok.2 = [Fetch (logoutRequest host (clientIP s)); SetTimeout Reload 1500%Z]
  /\ ok.1 = handleReset (notify now (JStr (utf16 "您已成功注销")) info s)
  /\ authStatus ok.1 = IDLE
  /\ logout_button (render ok.1) = false
  /\ clientIP ok.1 = clientIP s
  /\ ko.2 = [Fetch (logoutRequest host (clientIP s));
             ConsoleError (utf16 "登出失败:") e]
  /\ ko.1 = notify now (JStr (utf16 "登出时发生错误，请刷新页面重试")) error s
  /\ authStatus ko.1 = authStatus s
  /\ formData ko.1 = formData s
  /\ logout_button (render ko.1) = logout_button (render s).
Proof. repeat split. Qed.

End Settlement.

(* ===================================================================== *)
(** * What the page shows, and what no handler does                       *)
(* ===================================================================== *)

Section Rendering.

(** X10 — The rendered form is locked exactly while [authStatus] is
    LOADING: both inputs, the toggle and the submit button are disabled
    together and the reset button is not rendered.  The logout button is
    rendered exactly in the SUCCESS state, so never while a login is in
    flight.  A submit that passes validation puts the page in that locked
    view, with the spinner and without any error message. *)
Theorem render_locks_while_loading (host : jsstring) (s : State) :
  let v := render s in
  let submitted := render (handleSubmit_begin host s).1.1 in
  (submit_disabled v = true <-> authStatus s = LOADING)
  /\ input_disabled (username_input v) = submit_disabled v
  /\ input_disabled (password_input v) = submit_disabled v
  /\ toggle_disabled v = submit_disabled v
  /\ loading_spinner v = submit_disabled v
  /\ reset_button v = negb (submit_disabled v)
  /\ (logout_button v = true <-> authStatus s = SUCCESS)
  /\ (submit_disabled v = true -> logout_button v = false)
  /\ ((validateForm s).1 = true ->
        submit_disabled submitted = true
        /\ reset_button submitted = false
        /\ submit_text submitted = utf16 "认证中..."
        /\ username_error submitted = None
        /\ password_error submitted = None
        /\ general_error submitted = None).
Proof.
  intros v submitted. subst v submitted.
  split; [apply render_loading|].
  do 5 (split; [reflexivity|]).
  split; [apply render_success|].
  split.
  { intros H. apply render_loading in H.
    destruct (logout_button (render s)) eqn:Hl; [|reflexivity].
    apply render_success in Hl. congruence. }
  intros Hv. rewrite (handleSubmit_begin_valid host s Hv).
  repeat split.
Qed.

Lemma handleSubmit_begin_clientIP (host : jsstring) (s : State) :
  clientIP (handleSubmit_begin host s).1.1 = clientIP s.
Proof.
  destruct ((validateForm s).1) eqn:Hv.
  - now rewrite (handleSubmit_begin_valid host s Hv).
  - now rewrite (handleSubmit_begin_invalid host s Hv).
Qed.

Lemma handleSubmit_resume_clientIP (captured s : State) (o : LoginOutcome)
  (now : Z) :
  clientIP (handleSubmit_resume captured o now s).1 = clientIP s.
Proof.
  destruct (login_failed_dec o) as [Hf|Hs].
  - destruct (handleSubmit_resume_failed captured s o now Hf) as (m & _ & Heq & _).
    now rewrite Heq.
  - destruct (handleSubmit_resume_succeeded captured s o now Hs)
      as (store & Heq & _).
    now rewrite Heq.
Qed.

Lemma handle_clientIP (e : Event) (s : State) :
  clientIP (handle e s) = clientIP s.
Proof.
  destruct e as [c f v| |host|c o now| |key|o now|]; simpl.
  - apply handleInputChange_rest.
  - reflexivity.
  - apply handleSubmit_begin_clientIP.
  - apply handleSubmit_resume_clientIP.
  - reflexivity.
  - unfold handleKeyDown. now destruct (str_eqb key (utf16 "Escape")).
  - now destruct o.
  - reflexivity.
Qed.

(** X11 — [clientIP] is written by the mount effect only.  Whatever the
    user types, submits, resets or closes afterwards, and however the login
    and logout calls settle, the page keeps the address it read when it was
    mounted: it is the address it displays, and the one its next logout
    request carries. *)
Theorem clientIP_fixed_after_mount (host : jsstring) (es : list Event)
  (s : State) :
  clientIP (run es s) = clientIP s
  /\ client_info (render (run es s)) = client_info (render s)
  /\ handleLogout_begin host (run es s) = [Fetch (logoutRequest host (clientIP s))].
Proof.
  assert (H : clientIP (run es s) = clientIP s).
  { unfold run. revert s. induction es as [|e es IH]; intros s; simpl.
    - reflexivity.
    - now rewrite IH, handle_clientIP. }
  split; [exact H|].
  unfold handleLogout_begin. simpl. now rewrite H.
Qed.

(** A session of the page: mount with an address, type, submit, Escape,
    the login settles, logout. *)
Example clientIP_after_a_session :
  clientIP
    (run [InputChange initialState Username (utf16 "addyya");
          InputChange initialState Password (utf16 "sf123123");
          Submit portal_host;
          KeyDown (utf16 "Escape");
          LoginSettled (filled device_5)
            (JsonResolved (apiResponse true (Some (utf16 "tok-1")) None)) 7;
          LogoutSettled LogoutResolved 9]
       (readClientIP [(utf16 "client_ip", device_5)] initialState))
  = device_5.
Proof. vm_compute. reflexivity. Qed.





(** X13 — A field error is shown until the user types in that field.  After
    a submit that was refused for a blank username, the username input is
    marked invalid and its message is rendered; the first keystroke in the
    username field removes both, and does not touch what is shown for the
    password field. *)
Theorem typing_clears_field_error (host : jsstring) (s : State)
  (value : jsstring) :
  whitespace_only (FormData.username (formData s)) ->
  let refused := (handleSubmit_begin host s).1.1 in
  let typed := handleInputChange refused Username value refused in
  username_error (render refused) = Some (utf16 "请输入用户名")
  /\ aria_invalid (username_input (render refused)) = true
  /\ input_className (username_input (render refused)) = utf16 "form-input error"
  /\ username_error (render typed) = None
  /\ aria_invalid (username_input (render typed)) = false
  /\ input_className (username_input (render typed)) = utf16 "form-input "
  /\ input_value (username_input (render typed)) = value
  /\ password_error (render typed) = password_error (render refused)
  /\ aria_invalid (password_input (render typed))
     = aria_invalid (password_input (render refused)).
Proof.
  intros Hw refused typed.
  assert (Hv : (validateForm s).1 = false).
  { rewrite validateForm_verdict. apply whitespace_only_forallb in Hw.
    now rewrite Hw. }
  assert (Hr : refused = (validateForm s).2).
  { subst refused. now rewrite (handleSubmit_begin_invalid host s Hv). }
  assert (He : ErrorMessages.username (errors refused)
               = Some (Some (utf16 "请输入用户名"))).
  { rewrite Hr, validateForm_errors. simpl.
    apply whitespace_only_forallb in Hw. now rewrite Hw. }
  assert (Ht : typed
    = setErrors (ErrorMessages.set_undefined Username (errors refused))
        (setFormData (FormData.set Username value (formData refused)) refused)).
  { subst typed. unfold handleInputChange. simpl. now rewrite He. }
  rewrite Ht. unfold render. simpl. rewrite He. simpl.
  repeat split.
Qed.

Lemma typing_clears_field_error_witness :
  username_error
    (render (handleInputChange
               (handleSubmit_begin portal_host initialState).1.1 Username
               (utf16 "a")
               (handleSubmit_begin portal_host initialState).1.1))
  = None.
Proof.
  apply (typing_clears_field_error portal_host initialState (utf16 "a")).
  apply whitespace_only_forallb. reflexivity.
Defined.

Lemma handleSubmit_begin_general (host : jsstring) (s : State) :
  ErrorMessages.general (errors (handleSubmit_begin host s).1.1) = None.
Proof.
  destruct ((validateForm s).1) eqn:Hv.
  - now rewrite (handleSubmit_begin_valid host s Hv).
  - rewrite (handleSubmit_begin_invalid host s Hv). cbn [fst snd].
    now rewrite validateForm_errors.
Qed.

Lemma render_general (s : State) (m : JSON) :
  truthy_value m = true ->
  ErrorMessages.general (errors s) = Some (Some m) ->
  general_error (render s) = Some m.
Proof. intros Hm He. unfold render. simpl. rewrite He. simpl. now rewrite Hm. Qed.

(** X14 — A failed login is reported twice, as the notification and as the
    general error block, with the same text.  Closing the notification
    removes the notification only, and typing in either field does not
    clear the general error: it stays on the page until the next submit
    (accepted or refused) or a reset. *)
Theorem general_error_persists (host : jsstring) (captured closure s : State)
  (o : LoginOutcome) (now : Z) (field : Field) (value : jsstring) :
  login_failed o ->
  let failed := (handleSubmit_resume captured o now s).1 in
  exists m,
    truthy_value m = true
    /\ general_error (render failed) = Some m
    /\ (NotificationState.message <$> simpleNotification (render failed)) = Some m
    /\ simpleNotification (render (onClose failed)) = None
    /\ general_error (render (onClose failed)) = Some m
    /\ general_error (render (handleInputChange closure field value failed)) = Some m
    /\ general_error (render (handleSubmit_begin host failed).1.1) = None
    /\ general_error (render (handleReset failed)) = None.
Proof.
  intros Hf failed.
  destruct (handleSubmit_resume_failed captured s o now Hf) as (m & Hm & Heq & _).
  subst failed. rewrite Heq. exists m.
  split; [exact Hm|].
  split; [now apply render_general|].
  split; [reflexivity|].
  split; [reflexivity|].
  split; [now apply render_general|].
  split.
  { apply render_general; [exact Hm|].
    rewrite handleInputChange_errors.
    destruct (truthy_opt_string (ErrorMessages.get field (errors closure)));
      [destruct field|]; reflexivity. }
  split; [|reflexivity].
  unfold render. simpl. now rewrite handleSubmit_begin_general.
Qed.

Lemma general_error_persists_witness :
  exists m,
    general_error
      (render (onClose
         (handleSubmit_resume (filled device_5)
            (JsonResolved (apiResponse false None None)) 7
            (filled device_5)).1))
    = Some m.
Proof.
  destruct (general_error_persists portal_host (filled device_5)
              (filled device_5) (filled device_5)
              (JsonResolved (apiResponse false None None)) 7 Username [])
    as (m & _ & _ & _ & _ & H & _).
  - vm_compute. reflexivity.
  - exists m. exact H.
Defined.

End Rendering.
